(** * Basset Hound autofill extension: the Python client and the Flask demo

    A shallow embedding of

    - [BassetHoundClient] of [examples/python-client-example.py]: the
      [on_message] callback and the request/response loop of
      [_send_command];
    - the two routes [/submit] and [/config] of [flask_test_app/app.py].

    Python values are the values [json.loads] produces.  Library calls
    ([json.loads], [os.path.join], [os.path.exists], [open],
    [yaml.safe_load] and the values it builds, [jsonify] on them, the
    [repr] of a value inside an f-string) are parameters of the sections
    that use them; [redirect] is the response with its [Location], or
    the [ValueError] of a header value that holds a line break.
    Logging has no effect on the state and is left out. *)

From Stdlib Require Import ZArith QArith Lqa SpecFloat FinFun Ascii.
From stdpp Require Import gmap strings pretty list sorting.

Open Scope string_scope.
Open Scope list_scope.
Set Warnings "-register-all".

(** ** Python values *)

Module Py.

(** The values [json.loads] builds: [None], [bool], [int], [float]
    (a binary64, [NaN] and the infinities included), [str], [list] and
    [dict] with [str] keys.  A [dict] keeps its items in insertion
    order; [obj_get] returns the first binding of a key. *)
Inductive json :=
| JNull
| JBool (b : bool)
| JInt (n : Z)
| JFloat (f : spec_float)
| JStr (s : string)
| JList (items : list json)
| JObj (fields : list (string * json)).

(** The exceptions that occur.  [Exception] is the built-in raised by
    the client with a message; the others stand for the built-in of the
    same name, or for an error of a library ([LibraryError]). *)
Inductive exn :=
| Exception (msg : string)
| TypeError
| AttributeError
| KeyError
| ValueError
| LibraryError (name : string).

Inductive outcome (A : Type) :=
| Return (a : A)
| Raise (e : exn).
Arguments Return {A} a.
Arguments Raise {A} e.

Definition bind {A B} (m : outcome A) (k : A -> outcome B) : outcome B :=
  match m with
  | Return a => k a
  | Raise e => Raise e
  end.

(** [bool(v)]: the truth value Python gives [v]. *)
Definition truthy (v : json) : bool :=
  match v with
  | JNull => false
  | JBool b => b
  | JInt n => negb (n =? 0)%Z
  | JFloat (S754_zero _) => false
  | JFloat _ => true
  | JStr s => negb (String.eqb s "")
  | JList items => match items with [] => false | _ => true end
  | JObj fields => match fields with [] => false | _ => true end
  end.

Fixpoint obj_get (k : string) (fields : list (string * json)) : option json :=
  match fields with
  | [] => None
  | (k', v) :: rest => if String.eqb k' k then Some v else obj_get k rest
  end.

(** [needle in s] for two strings. *)
Fixpoint is_prefix (p s : string) : bool :=
  match p, s with
  | EmptyString, _ => true
  | String a p', String b s' => if Ascii.eqb a b then is_prefix p' s' else false
  | String _ _, EmptyString => false
  end.

Fixpoint str_contains (needle s : string) : bool :=
  if is_prefix needle s then true
  else match s with
       | EmptyString => false
       | String _ s' => str_contains needle s'
       end.

Definition is_str (k : string) (v : json) : bool :=
  match v with
  | JStr s => String.eqb s k
  | _ => false
  end.

(** [k in v] for a string [k]: key membership on a dict, element
    membership on a list, substring on a str, [TypeError] otherwise. *)
Definition py_contains (k : string) (v : json) : outcome bool :=
  match v with
  | JObj fields => Return (match obj_get k fields with Some _ => true | None => false end)
  | JList items => Return (existsb (is_str k) items)
  | JStr s => Return (str_contains k s)
  | _ => Raise TypeError
  end.

(** [v[k]] for a string [k]. *)
Definition py_getitem (v : json) (k : string) : outcome json :=
  match v with
  | JObj fields =>
      match obj_get k fields with
      | Some x => Return x
      | None => Raise KeyError
      end
  | _ => Raise TypeError
  end.

(** [v.get(k, default)]; only a dict has the method. *)
Definition py_get (v : json) (k : string) (default : json) : outcome json :=
  match v with
  | JObj fields => Return (match obj_get k fields with Some x => x | None => default end)
  | _ => Raise AttributeError
  end.

(** ** Dictionaries with arbitrary hashable keys

    [self.responses] is a plain dict; [on_message] files a reply under
    whatever [data['command_id']] is.  The hashable values of [json] are
    [None], numbers and strings; [True] and [False] hash and compare as
    [1] and [0]. *)
Inductive pykey :=
| KNone
| KInt (n : Z)
| KFloat (f : spec_float)
| KStr (s : string).

Definition key_of (v : json) : option pykey :=
  match v with
  | JNull => Some KNone
  | JBool b => Some (KInt (if b then 1 else 0))
  | JInt n => Some (KInt n)
  | JFloat f => Some (KFloat f)
  | JStr s => Some (KStr s)
  | JList _ | JObj _ => None
  end.

(** [==] on two canonical binary64 values: [NaN] equals nothing, the
    two zeros are equal. *)
Definition float_eqb (f g : spec_float) : bool :=
  match f, g with
  | S754_zero _, S754_zero _ => true
  | S754_infinity s, S754_infinity t => Bool.eqb s t
  | S754_finite s m e, S754_finite t n d =>
      Bool.eqb s t && (m =? n)%positive && (e =? d)%Z
  | _, _ => false
  end.

(** [==] between a float and an int is exact. *)
Definition float_int_eqb (f : spec_float) (n : Z) : bool :=
  match f with
  | S754_zero _ => (n =? 0)%Z
  | S754_finite s m e =>
      let v := if s then Z.neg m else Z.pos m in
      if (0 <=? e)%Z then (n =? v * 2 ^ e)%Z else (n * 2 ^ (- e) =? v)%Z
  | _ => false
  end.

Definition key_eqb (a b : pykey) : bool :=
  match a, b with
  | KNone, KNone => true
  | KInt m, KInt n => (m =? n)%Z
  | KInt n, KFloat f | KFloat f, KInt n => float_int_eqb f n
  | KFloat f, KFloat g => float_eqb f g
  | KStr s, KStr t => String.eqb s t
  | _, _ => false
  end.

Definition pydict := list (pykey * json).

(** [k in d] *)
Fixpoint dict_mem (k : pykey) (d : pydict) : bool :=
  match d with
  | [] => false
  | (k', _) :: rest => if key_eqb k' k then true else dict_mem k rest
  end.

Fixpoint dict_get (k : pykey) (d : pydict) : option json :=
  match d with
  | [] => None
  | (k', v) :: rest => if key_eqb k' k then Some v else dict_get k rest
  end.

(** [d[k] = v]: an equal key keeps its place and gets the new value, a
    new key goes last. *)
Fixpoint dict_set (k : pykey) (v : json) (d : pydict) : pydict :=
  match d with
  | [] => [(k, v)]
  | (k', v') :: rest =>
      if key_eqb k' k then (k', v) :: rest else (k', v') :: dict_set k v rest
  end.

(** [d.pop(k)]: the value and the dict without the item, [None] for
    the [KeyError] of a missing key. *)
Fixpoint dict_pop (k : pykey) (d : pydict) : option (json * pydict) :=
  match d with
  | [] => None
  | (k', v) :: rest =>
      if key_eqb k' k then Some (v, rest)
      else match dict_pop k rest with
           | Some (x, rest') => Some (x, (k', v) :: rest')
           | None => None
           end
  end.

(** [d[kv] = v] where the key is a value: [TypeError] when unhashable. *)
Definition dict_setitem (d : pydict) (kv : json) (v : json) : outcome pydict :=
  match key_of kv with
  | Some k => Return (dict_set k v d)
  | None => Raise TypeError
  end.

(** A Python dict never holds two equal keys. *)
Fixpoint dict_okb (d : pydict) : bool :=
  match d with
  | [] => true
  | (k, _) :: rest => negb (dict_mem k rest) && dict_okb rest
  end.

End Py.

(** ** The WebSocket client of [examples/python-client-example.py] *)

Module Client.
Import Py.

(** The state of a [BassetHoundClient].  [ws_sent] stands for the
    socket [self.ws]: the documents whose [json.dumps] text was handed
    to [self.ws.send], oldest first. *)
Record client := mkClient {
  url : string;
  connected : bool;
  responses : pydict;
  command_counter : Z;
  ws_sent : list json
}.

Definition set_connected (b : bool) (c : client) : client :=
  mkClient (url c) b (responses c) (command_counter c) (ws_sent c).

Definition set_responses (d : pydict) (c : client) : client :=
  mkClient (url c) (connected c) d (command_counter c) (ws_sent c).

Definition set_command_counter (n : Z) (c : client) : client :=
  mkClient (url c) (connected c) (responses c) n (ws_sent c).

(** [self.ws.send(json.dumps(frame))]; the socket library is taken to
    accept the frame. *)
Definition ws_send (frame : json) (c : client) : client :=
  mkClient (url c) (connected c) (responses c) (command_counter c)
           (ws_sent c ++ [frame]).

(** [BassetHoundClient.__init__] *)
Definition init (u : string) : client :=
  mkClient u false [] 0 [].

(** What the receive thread of the socket does to the client: the four
    callbacks [connect] registers. *)
Inductive ws_event :=
| OnOpen
| OnMessage (message : string)
| OnError
| OnClose.

(** One step of the schedule a call of [_send_command] runs under:
    the receive thread runs a callback at time [at_time], or the
    calling thread makes one pass of its [while] loop at time [now],
    which is what [time.time()] gives it when the pass reads the clock.
    A callback runs between two passes, never inside one, nor between
    the last pass and the [pop]. *)
Inductive step :=
| Recv (at_time : Q) (ev : ws_event)
| Poll (now : Q).

Definition step_time (s : step) : Q :=
  match s with
  | Recv t _ => t
  | Poll t => t
  end.

(** How the wait loop of [_send_command] ends: the id is in the map,
    the clock has passed the timeout, or the schedule ends with the
    call still asleep. *)
Inductive waited :=
| Found (c : client)
| TimedOut (c : client)
| Asleep (c : client).

Definition waited_client (w : waited) : client :=
  match w with
  | Found c | TimedOut c | Asleep c => c
  end.

Section WithLibraries.

(** [json.loads]: the parsed value, or [None] for [JSONDecodeError]. *)
Variable json_loads : string -> option json.

(** The text an f-string gives a value that is not a [str]. *)
Variable py_repr : json -> string.

(** [f"{v}"] *)
Definition py_str (v : json) : string :=
  match v with
  | JStr s => s
  | _ => py_repr v
  end.

(** [on_message], lines 65-79.  An exception other than
    [JSONDecodeError] leaves the callback; the state is the one reached
    when it was raised. *)
Definition on_message (message : string) (c : client) : outcome unit * client :=
  match json_loads message with
  | None => (Return tt, c)
  | Some data =>
      match py_contains "command_id" data with
      | Raise e => (Raise e, c)
      | Return true =>
          match bind (py_getitem data "command_id")
                     (fun k => dict_setitem (responses c) k data) with
          | Raise e => (Raise e, c)
          | Return d => (Return tt, set_responses d c)
          end
      | Return false =>
          match py_get data "type" JNull with
          | Raise e => (Raise e, c)
          | Return ty =>
              if is_str "connected" ty then (Return tt, set_connected true c)
              else (Return tt, c)
          end
      end
  end.

(** [on_close], lines 85-88. *)
Definition on_close (c : client) : client := set_connected false c.

(** The receive thread runs the callback of the event; an exception
    raised by the callback is reported by the socket library and the
    thread goes on. *)
Definition callback (ev : ws_event) (c : client) : client :=
  match ev with
  | OnOpen => c
  | OnMessage message => snd (on_message message c)
  | OnError => c
  | OnClose => on_close c
  end.

(** [(time.time() - start_time) > timeout] *)
Definition expired (timeout : Z) (start_time now : Q) : bool :=
  negb (Qle_bool (now - start_time) (inject_Z timeout)).

(** The [while] loop of lines 163-166 under a schedule. *)
Fixpoint wait_for_response (command_id : string) (timeout : Z) (start_time : Q)
    (trace : list step) (c : client) : waited :=
  match trace with
  | [] => Asleep c
  | Recv _ ev :: trace' =>
      wait_for_response command_id timeout start_time trace' (callback ev c)
  | Poll now :: trace' =>
      if dict_mem (KStr command_id) (responses c) then Found c
      else if expired timeout start_time now then TimedOut c
      else wait_for_response command_id timeout start_time trace' c
  end.

(** [f"cmd-{self.command_counter}"] *)
Definition command_id_of (counter : Z) : string :=
  "cmd-" +:+ pretty counter.

(** The dict built at lines 149-153. *)
Definition command (command_id command_type : string) (params : json) : json :=
  JObj [("command_id", JStr command_id);
        ("type", JStr command_type);
        ("params", params)].

(** Lines 168-178: take the reply out of the map and turn it into the
    result of the call. *)
Definition take_response (command_id : string) (c : client)
    : outcome json * client :=
  match dict_pop (KStr command_id) (responses c) with
  | None => (Raise KeyError, c)
  | Some (response, d) =>
      let c' := set_responses d c in
      match py_get response "success" JNull with
      | Raise e => (Raise e, c')
      | Return success =>
          if negb (truthy success) then
            match py_get response "error" (JStr "Unknown error") with
            | Raise e => (Raise e, c')
            | Return error => (Raise (Exception ("Command failed: " +:+ py_str error)), c')
            end
          else (py_get response "result" (JObj []), c')
      end
  end.

(** The id the next command of the client gets. *)
Definition next_command_id (c : client) : string :=
  command_id_of (command_counter c + 1).

(** Lines 144-159: the counter goes up, the command dict is built
    under the fresh id, and the frame is sent. *)
Definition issue (command_type : string) (params : json) (c : client) : client :=
  let c1 := set_command_counter (command_counter c + 1) c in
  let command_id := command_id_of (command_counter c1) in
  ws_send (command command_id command_type params) c1.

(** [_send_command], lines 125-178.  [start_time] is the clock as read
    at line 162; the result is [None] when the schedule ends before the
    call does. *)
Definition _send_command (command_type : string) (params : json) (timeout : Z)
    (start_time : Q) (trace : list step) (c : client)
    : option (outcome json) * client :=
  if negb (connected c) then (Some (Raise (Exception "Not connected to server")), c)
  else
    let command_id := next_command_id c in
    match wait_for_response command_id timeout start_time trace
                            (issue command_type params c) with
    | Asleep c3 => (None, c3)
    | TimedOut c3 =>
        (Some (Raise (Exception ("Command timeout after " +:+ pretty timeout +:+ "s"))), c3)
    | Found c3 =>
        let '(r, c4) := take_response command_id c3 in (Some r, c4)
    end.

(** The client after the callbacks of a schedule, the polls left
    aside: what the receive thread alone has done by its end. *)
Definition deliver (trace : list step) (c : client) : client :=
  fold_left (fun c s => match s with Recv _ ev => callback ev c | Poll _ => c end)
            trace c.

(** What a program does with a client: calls of [_send_command], each
    under its own schedule, and callbacks in between. *)
Inductive action :=
| Event (ev : ws_event)
| Command (command_type : string) (params : json) (timeout : Z)
          (start_time : Q) (trace : list step).

Definition act (c : client) (a : action) : client :=
  match a with
  | Event ev => callback ev c
  | Command command_type params timeout start_time trace =>
      snd (_send_command command_type params timeout start_time trace c)
  end.

Definition run (acts : list action) (c : client) : client :=
  fold_left act acts c.

End WithLibraries.

(** The [command_id] a frame carries. *)
Definition frame_command_id (frame : json) : option json :=
  match frame with
  | JObj fields => obj_get "command_id" fields
  | _ => None
  end.

(** The ids of the frames the socket has got, oldest first. *)
Definition sent_ids (c : client) : list (option json) :=
  map frame_command_id (ws_sent c).

(** The ids of the first [n] commands of a client. *)
Definition issued_ids (n : nat) : list (option json) :=
  map (fun k => Some (JStr (command_id_of (Z.of_nat k)))) (seq 1 n).

(** Every frame a client has sent carries the id of its place in the
    count. *)
Definition counted (c : client) : Prop :=
  (0 <= command_counter c)%Z /\
  sent_ids c = issued_ids (Z.to_nat (command_counter c)).


(** What [on_message] keeps true of [self.responses]: every value is a
    dict, and one filed under a string carries that string as its
    [command_id]. *)
Definition entry_okb (e : pykey * json) : bool :=
  match e with
  | (KStr s, JObj fields) =>
      match obj_get "command_id" fields with
      | Some (JStr s') => String.eqb s' s
      | _ => false
      end
  | (_, JObj _) => true
  | _ => false
  end.

Definition client_okb (c : client) : bool :=
  dict_okb (responses c) && forallb entry_okb (responses c).

(** No reply keyed by [command_id] appears in the mailbox within
    [timeout] seconds of [start_time]: after every step of the schedule
    that happens by then, the id is not a key. *)
Definition no_response_within (json_loads : string -> option json)
    (command_id : string) (timeout : Z) (start_time : Q)
    (trace : list step) (c : client) : Prop :=
  forall pre s post,
    trace = pre ++ s :: post ->
    (step_time s - start_time <= inject_Z timeout)%Q ->
    dict_mem (KStr command_id) (responses (deliver json_loads (pre ++ [s]) c)) = false.

End Client.

(** ** The demo server of [flask_test_app/app.py] *)

Module FlaskApp.
Import Py.

(** What a view returns: the response [redirect] builds (status 302
    with that [Location]) or [jsonify(body)] with a status. *)
Inductive response :=
| Redirect (location : string)
| Json (status : Z) (body : json).

(** A carriage return or a line feed. *)
Definition is_line_break (a : ascii) : bool :=
  Ascii.eqb a "010"%char || Ascii.eqb a "013"%char.

Fixpoint has_line_break (s : string) : bool :=
  match s with
  | EmptyString => false
  | String a s' => is_line_break a || has_line_break s'
  end.

(** [redirect(location)]: the response whose [Location] header is set
    to [location]; a header value that holds a carriage return or a
    line feed is refused with [ValueError]. *)
Definition redirect (location : string) : outcome response :=
  if has_line_break location then Raise ValueError
  else Return (Redirect location).

(** [request.form.get(name)] and [request.args.get(name)]: the first
    value sent under the name, [None] when there is none. *)
Fixpoint form_get (name : string) (form : list (string * string)) : option string :=
  match form with
  | [] => None
  | (k, v) :: rest => if String.eqb k name then Some v else form_get name rest
  end.

(** [v or default] for an optional string. *)
Definition or_else (v : option string) (default : string) : string :=
  match v with
  | Some s => if String.eqb s "" then default else s
  | None => default
  end.

Definition opt_json (v : option string) : json :=
  match v with
  | Some s => JStr s
  | None => JNull
  end.

(** The dict literal of lines 23-32. *)
Definition make_config (email phone : option string) : json :=
  JObj [("fields",
         JObj [("email", JObj [("input#AccountCheck_Account", opt_json email)]);
               ("phone", JObj [("input#PhoneField", JStr (or_else phone ""))])])].

(** [submit], lines 17-34, on the form of the request and the
    module-level [temp_configs].  The store of line 23 comes first: it
    has happened when [redirect] raises. *)
Definition submit (form : list (string * string)) (temp_configs : gmap string json)
    : outcome response * gmap string json :=
  let email := form_get "email" form in
  let phone := form_get "phone" form in
  let target_domain := or_else (form_get "target" form) "haveibeenpwned.com" in
  (redirect ("https://" +:+ target_domain +:+ "/"),
   <[target_domain := make_config email phone]> temp_configs).

Section WithFiles.

Variable os_path_join : string -> string -> string.
Variable os_path_exists : string -> bool.

(** [open(path, 'r')] and reading the file. *)
Variable open_read : string -> outcome string.

(** The values [yaml.safe_load] builds, which are more than those of
    JSON (sets, bytes, dates, mappings with keys of any kind), and
    [jsonify] on such a value: the JSON body, or the exception of a
    value it cannot serialise. *)
Variable yaml_value : Type.
Variable yaml_safe_load : string -> outcome yaml_value.
Variable jsonify : yaml_value -> outcome json.

(** [f'{origin}.yaml'] *)
Definition yaml_name (origin : option string) : string :=
  match origin with
  | Some o => o +:+ ".yaml"
  | None => "None.yaml"
  end.

Definition config_path (origin : option string) : string :=
  os_path_join "configs" (yaml_name origin).

(** [origin in temp_configs]; the keys are strings, [None] is none of
    them. *)
Definition stored (origin : option string) (temp_configs : gmap string json)
    : option json :=
  match origin with
  | Some o => temp_configs !! o
  | None => None
  end.

(** [get_config], lines 36-48, on the [origin] query parameter.  An
    exception leaves the view (Flask answers it with status 500).  A
    stored configuration is a JSON value, which [jsonify] takes as it
    is. *)
Definition get_config (origin : option string) (temp_configs : gmap string json)
    : outcome response :=
  match stored origin temp_configs with
  | Some config => Return (Json 200 config)
  | None =>
      let path := config_path origin in
      if os_path_exists path then
        bind (open_read path) (fun f =>
        bind (yaml_safe_load f) (fun config =>
        bind (jsonify config) (fun body =>
        Return (Json 200 body))))
      else Return (Json 404 (JObj [("error", JStr "No config found")]))
  end.

End WithFiles.

End FlaskApp.


(** ** Concrete clients and messages *)

Module Scenario.
Import Py Client.

(** A parser that knows five messages. *)
Definition loads (message : string) : option json :=
  if String.eqb message "hello" then
    Some (JObj [("type", JStr "connected")])
  else if String.eqb message "ok-1" then
    Some (JObj [("command_id", JStr "cmd-1"); ("success", JBool true);
                ("result", JObj [("url", JStr "https://example.com/")])])
  else if String.eqb message "bare-1" then
    Some (JObj [("command_id", JStr "cmd-1"); ("success", JBool true)])
  else if String.eqb message "fail-1" then
    Some (JObj [("command_id", JStr "cmd-1"); ("success", JBool false);
                ("error", JStr "No such tab")])
  else if String.eqb message "odd" then
    Some (JObj [("command_id", JList [])])
  else None.

Definition repr (v : json) : string := "<repr>".

Definition fresh : client := init "ws://localhost:8765/browser".

(** The client once the extension has greeted it. *)
Definition ready : client := callback loads (OnMessage "hello") fresh.

Definition navigate_params : json :=
  JObj [("url", JStr "https://example.com/"); ("timeout", JInt 30000)].

(** A [configs] directory with three files: one of them is not YAML,
    one holds a set. *)
Definition join (a b : string) : string := a +:+ "/" +:+ b.

Definition files : list (string * string) :=
  [("configs/example.com.yaml", "fields: {}");
   ("configs/broken.yaml", "fields: [");
   ("configs/tags.yaml", "!!set {a, b}")].

Definition exists_file (path : string) : bool :=
  match FlaskApp.form_get path files with
  | Some _ => true
  | None => false
  end.

Definition read_file (path : string) : outcome string :=
  match FlaskApp.form_get path files with
  | Some text => Return text
  | None => Raise (LibraryError "FileNotFoundError")
  end.

(** A loaded value: one with a JSON form, or a Python value of the
    named type that has none. *)
Definition load_yaml (text : string) : outcome (json + string) :=
  if String.eqb text "fields: {}" then Return (inl (JObj [("fields", JObj [])]))
  else if String.eqb text "!!set {a, b}" then Return (inr "set")
  else Raise (LibraryError "yaml.YAMLError").

Definition to_json (v : json + string) : outcome json :=
  match v with
  | inl body => Return body
  | inr _ => Raise TypeError
  end.

(** A target that holds a line feed. *)
Definition two_lines : string :=
  "example.net" +:+ String "010"%char "Set-Cookie: a=b".

Definition posted : list (string * string) :=
  [("email", "ann@example.org"); ("phone", "555-0100"); ("target", "example.net")].

End Scenario.

(** ** The other methods of [BassetHoundClient] *)

Module ClientMethods.
Import Py Client.

(** How a call of [connect] ends: it returns [True], it raises
    [WebSocketException("Connection timeout")], or the schedule ends
    with the call still asleep in its loop. *)
Inductive connect_result :=
| Connected
| ConnectionTimeout
| Connecting.

(** [(time.time() - start_time) < timeout] *)
Definition in_time (timeout : Z) (start_time now : Q) : bool :=
  negb (Qle_bool (inject_Z timeout) (now - start_time)).

(** [disconnect], lines 118-123; [has_ws] tells whether [self.ws] is
    set, which it is from the first [connect] on. *)
Definition disconnect (has_ws : bool) (c : client) : client :=
  if has_ws then set_connected false c else c.

(** [result = self._send_command(...); return result.get(key, default)] *)
Definition then_get (key : string) (default : json)
    (r : option (outcome json) * client) : option (outcome json) * client :=
  match r with
  | (Some (Return result), c) => (Some (py_get result key default), c)
  | other => other
  end.

(** [if v: params[key] = v] for an optional string [v]. *)
Definition optional_item (key : string) (v : option string) : list (string * json) :=
  match v with
  | Some s => if String.eqb s "" then [] else [(key, JStr s)]
  | None => []
  end.

(** [data_url.split(',', 1)[1]] on a string that holds a comma. *)
Fixpoint after_comma (s : string) : string :=
  match s with
  | EmptyString => EmptyString
  | String a s' => if Ascii.eqb a ","%char then s' else after_comma s'
  end.

Section WithLibraries.

Variable json_loads : string -> option json.
Variable py_repr : json -> string.

(** The [while] loop of lines 110-111 under a schedule: [None] when the
    schedule ends first. *)
Fixpoint wait_for_connection (timeout : Z) (start_time : Q)
    (trace : list step) (c : client) : option client :=
  match trace with
  | [] => None
  | Recv _ ev :: trace' =>
      wait_for_connection timeout start_time trace' (callback json_loads ev c)
  | Poll now :: trace' =>
      if negb (connected c) && in_time timeout start_time now
      then wait_for_connection timeout start_time trace' c
      else Some c
  end.

(** [connect], lines 50-116.  Making the socket and starting its
    thread changes none of the fields; [start_time] is the clock as read
    at line 109.  No callback runs between the pass that ends the loop
    and the test of line 113. *)
Definition connect (timeout : Z) (start_time : Q) (trace : list step) (c : client)
    : connect_result * client :=
  match wait_for_connection timeout start_time trace c with
  | None => (Connecting, deliver json_loads trace c)
  | Some c' => if negb (connected c') then (ConnectionTimeout, c') else (Connected, c')
  end.

Local Abbreviation send := (_send_command json_loads py_repr).

(** [navigate], lines 180-198. *)
Definition navigate (url : string) (wait_for : option string) (timeout : Z)
    (start_time : Q) (trace : list step) (c : client)
    : option (outcome json) * client :=
  let params :=
    JObj ([("url", JStr url)] ++ optional_item "wait_for" wait_for ++
          [("timeout", JInt (timeout * 1000))]) in
  send "navigate" params timeout start_time trace c.

(** [fill_form], lines 200-215. *)
Definition fill_form (fields : json) (submit : bool)
    (start_time : Q) (trace : list step) (c : client)
    : option (outcome json) * client :=
  send "fill_form" (JObj [("fields", fields); ("submit", JBool submit)])
       30 start_time trace c.

(** [click], lines 217-232. *)
Definition click (selector : string) (wait_after : Z)
    (start_time : Q) (trace : list step) (c : client)
    : option (outcome json) * client :=
  send "click" (JObj [("selector", JStr selector); ("wait_after", JInt wait_after)])
       30 start_time trace c.

(** [get_content], lines 234-245. *)
Definition get_content (selector : string)
    (start_time : Q) (trace : list step) (c : client)
    : option (outcome json) * client :=
  send "get_content" (JObj [("selector", JStr selector)]) 30 start_time trace c.

(** [screenshot], lines 247-263. *)
Definition screenshot (format : string) (quality : Z)
    (start_time : Q) (trace : list step) (c : client)
    : option (outcome json) * client :=
  then_get "screenshot" (JStr "")
    (send "screenshot" (JObj [("format", JStr format); ("quality", JInt quality)])
          30 start_time trace c).

(** [wait_for_element], lines 265-280. *)
Definition wait_for_element (selector : string) (timeout : Z)
    (start_time : Q) (trace : list step) (c : client)
    : option (outcome json) * client :=
  send "wait_for_element"
       (JObj [("selector", JStr selector); ("timeout", JInt (timeout * 1000))])
       timeout start_time trace c.

(** [get_page_state], lines 282-289. *)
Definition get_page_state (start_time : Q) (trace : list step) (c : client)
    : option (outcome json) * client :=
  send "get_page_state" (JObj []) 30 start_time trace c.

(** [execute_script], lines 291-303. *)
Definition execute_script (script : string)
    (start_time : Q) (trace : list step) (c : client)
    : option (outcome json) * client :=
  then_get "result" JNull
    (send "execute_script" (JObj [("script", JStr script)]) 30 start_time trace c).

(** [get_cookies], lines 305-319. *)
Definition get_cookies (url : option string)
    (start_time : Q) (trace : list step) (c : client)
    : option (outcome json) * client :=
  then_get "cookies" (JList [])
    (send "get_cookies" (JObj (optional_item "url" url)) 30 start_time trace c).

(** [detect_forms], lines 321-329. *)
Definition detect_forms (start_time : Q) (trace : list step) (c : client)
    : option (outcome json) * client :=
  then_get "forms" (JList [])
    (send "detect_forms" (JObj []) 30 start_time trace c).

(** [detect_captcha], lines 331-338. *)
Definition detect_captcha (start_time : Q) (trace : list step) (c : client)
    : option (outcome json) * client :=
  send "detect_captcha" (JObj []) 30 start_time trace c.

(** The image bytes and [base64.b64decode], which raises on text that
    is not base64. *)
Variable bytes : Type.
Variable b64decode : string -> outcome bytes.

(** Lines 362-369 of [save_screenshot]: the base64 text of a data URL
    and its bytes.  A value that is not a [str] has no [split], and
    [b64decode] takes none but a [str] among the values of [json]. *)
Definition image_data (data_url : json) : outcome bytes :=
  bind (py_contains "," data_url) (fun has_comma =>
    match data_url with
    | JStr s => b64decode (if has_comma then after_comma s else s)
    | _ => if has_comma then Raise AttributeError else Raise TypeError
    end).

(** [save_screenshot], lines 340-374.  A returned pair stands for the
    file name returned and the bytes written to the file of that name;
    the write itself is taken to succeed. *)
Definition save_screenshot (filename format : string)
    (start_time : Q) (trace : list step) (c : client)
    : option (outcome (string * bytes)) * client :=
  match screenshot format 100 start_time trace c with
  | (Some (Return data_url), c') =>
      (Some (bind (image_data data_url) (fun image => Return (filename, image))), c')
  | (Some (Raise e), c') => (Some (Raise e), c')
  | (None, c') => (None, c')
  end.

End WithLibraries.

End ClientMethods.

(** ** Requests to the demo server, one after another *)

Module FlaskSession.
Import Py FlaskApp.

(** The key [submit] stores under, line 21. *)
Definition target_domain (form : list (string * string)) : string :=
  or_else (form_get "target" form) "haveibeenpwned.com".

(** The configuration [submit] stores, lines 23-32. *)
Definition config_of (form : list (string * string)) : json :=
  make_config (form_get "email" form) (form_get "phone" form).

(** [temp_configs] after one POST to [/submit] per form, in order. *)
Definition run_submits (forms : list (list (string * string)))
    (temp_configs : gmap string json) : gmap string json :=
  fold_left (fun tc form => snd (submit form tc)) forms temp_configs.

End FlaskSession.

(** ** Concrete replies for the other methods *)

Module MethodScenario.
Import Py Client.

(** A parser that knows the greeting and three replies to [cmd-1]. *)
Definition loads (message : string) : option json :=
  if String.eqb message "hello" then
    Some (JObj [("type", JStr "connected")])
  else if String.eqb message "shot-1" then
    Some (JObj [("command_id", JStr "cmd-1"); ("success", JBool true);
                ("result", JObj [("screenshot", JStr "data:image/png;base64,aGk=")])])
  else if String.eqb message "null-1" then
    Some (JObj [("command_id", JStr "cmd-1"); ("success", JBool true);
                ("result", JNull)])
  else if String.eqb message "again-1" then
    Some (JObj [("command_id", JStr "cmd-1"); ("success", JBool false);
                ("error", JStr "Tab closed")])
  else if String.eqb message "text" then
    Some (JStr "no command_id here")
  else None.

(** A decoder that knows one text and the empty one. *)
Definition decode (text : string) : outcome string :=
  if String.eqb text "aGk=" then Return "hi"
  else if String.eqb text "" then Return ""
  else Raise (LibraryError "binascii.Error").

Definition ready : client := callback loads (OnMessage "hello") (init "ws://localhost:8765/browser").

(** A client whose first command timed out and whose reply came
    afterwards. *)
Definition after_late_reply : client :=
  run loads Scenario.repr
      [Command "screenshot" (JObj []) 30 0 [Poll (301 # 10)];
       Event (OnMessage "shot-1")]
      ready.

End MethodScenario.

(** ** Facts about Python dictionaries *)

Module PyFacts.
Import Py.

Lemma key_eqb_str_r k s : key_eqb k (KStr s) = true -> k = KStr s.
Proof.
  destruct k as [| n | f | t]; simpl; try discriminate.
  intros H. apply String.eqb_eq in H. congruence.
Qed.

Lemma key_eqb_str_l k s : key_eqb (KStr s) k = true -> k = KStr s.
Proof.
  destruct k as [| n | f | t]; simpl; try discriminate.
  intros H. apply String.eqb_eq in H. congruence.
Qed.


Lemma float_eqb_sym f g : float_eqb f g = float_eqb g f.
Proof.
  destruct f as [s | s | | s m e], g as [t | t | | t n d]; simpl; try reflexivity.
  - destruct s, t; reflexivity.
  - rewrite (Pos.eqb_sym m n), (Z.eqb_sym e d).
    destruct s, t; reflexivity.
Qed.

Lemma key_eqb_sym a b : key_eqb a b = key_eqb b a.
Proof.
  destruct a, b; simpl; try reflexivity.
  - apply Z.eqb_sym.
  - apply float_eqb_sym.
  - apply String.eqb_sym.
Qed.

Lemma key_of_str kv s : key_of kv = Some (KStr s) -> kv = JStr s.
Proof. destruct kv; simpl; intros H; try discriminate; congruence. Qed.

(** Assignment never takes a string key away. *)
Lemma dict_mem_set s k v d :
  dict_mem (KStr s) d = true -> dict_mem (KStr s) (dict_set k v d) = true.
Proof.
  induction d as [| [k' v'] rest IH]; simpl; [discriminate |].
  destruct (key_eqb k' k) eqn:Hk; simpl.
  - trivial.
  - destruct (key_eqb k' (KStr s)); auto.
Qed.

Lemma dict_mem_set_eq s v d : dict_mem (KStr s) (dict_set (KStr s) v d) = true.
Proof.
  induction d as [| [k' v'] rest IH]; simpl.
  - now rewrite String.eqb_refl.
  - destruct (key_eqb k' (KStr s)) eqn:Hk; simpl; rewrite Hk; auto.
Qed.

Lemma dict_get_set_eq s v d : dict_get (KStr s) (dict_set (KStr s) v d) = Some v.
Proof.
  induction d as [| [k' v'] rest IH]; simpl.
  - now rewrite String.eqb_refl.
  - destruct (key_eqb k' (KStr s)) eqn:Hk; simpl; rewrite Hk; auto.
Qed.


Lemma dict_mem_set_inv k0 k v d :
  dict_mem k0 (dict_set k v d) = true ->
  dict_mem k0 d = true \/ key_eqb k k0 = true.
Proof.
  induction d as [| [k' v'] rest IH]; simpl.
  - destruct (key_eqb k k0); auto.
  - destruct (key_eqb k' k) eqn:Hk; simpl.
    + auto.
    + destruct (key_eqb k' k0); auto.
Qed.

Lemma dict_okb_set k v d : dict_okb d = true -> dict_okb (dict_set k v d) = true.
Proof.
  induction d as [| [k' v'] rest IH]; simpl; [reflexivity |].
  intros [Hfresh Hrest]%andb_prop.
  destruct (key_eqb k' k) eqn:Hk; simpl.
  - now rewrite Hfresh, Hrest.
  - rewrite IH by assumption. rewrite andb_true_r.
    destruct (dict_mem k' (dict_set k v rest)) eqn:Hm; [| reflexivity].
    apply dict_mem_set_inv in Hm as [Hm | Hm].
    + now rewrite Hm in Hfresh.
    + rewrite key_eqb_sym in Hm. congruence.
Qed.

Lemma dict_pop_mem k d :
  dict_mem k d = true -> exists v d', dict_pop k d = Some (v, d').
Proof.
  induction d as [| [k' v'] rest IH]; simpl; [discriminate |].
  destruct (key_eqb k' k); [eauto |].
  intros H. destruct (IH H) as (v & d' & ->). eauto.
Qed.

Lemma dict_pop_get k d v d' : dict_pop k d = Some (v, d') -> dict_get k d = Some v.
Proof.
  revert d'. induction d as [| [k' v'] rest IH]; simpl; intros d'; [discriminate |].
  destruct (key_eqb k' k); [congruence |].
  destruct (dict_pop k rest) as [[x rest'] |]; [| discriminate].
  intros H. injection H as -> _. eauto.
Qed.

Lemma dict_pop_mem_inv k k0 d v d' :
  dict_pop k d = Some (v, d') -> dict_mem k0 d' = true -> dict_mem k0 d = true.
Proof.
  revert d'. induction d as [| [k' v'] rest IH]; simpl; intros d'; [discriminate |].
  destruct (key_eqb k' k).
  - intros H. injection H as _ <-. intros Hm.
    rewrite Hm. now destruct (key_eqb k' k0).
  - destruct (dict_pop k rest) as [[x rest'] |]; [| discriminate].
    intros H. injection H as <- <-. simpl.
    destruct (key_eqb k' k0); eauto.
Qed.

Lemma dict_okb_pop k d v d' :
  dict_okb d = true -> dict_pop k d = Some (v, d') -> dict_okb d' = true.
Proof.
  revert d'. induction d as [| [k' v'] rest IH]; simpl; intros d'; [discriminate |].
  intros [Hfresh Hrest]%andb_prop.
  destruct (key_eqb k' k).
  - intros H. now injection H as _ <-.
  - destruct (dict_pop k rest) as [[x rest'] |] eqn:Hp; [| discriminate].
    intros H. injection H as <- <-. simpl.
    rewrite (IH rest') by auto. rewrite andb_true_r.
    destruct (dict_mem k' rest') eqn:Hm; [| reflexivity].
    apply (dict_pop_mem_inv _ _ _ _ _ Hp) in Hm. now rewrite Hm in Hfresh.
Qed.

(** In a well-formed dict, a popped string key is gone. *)
Lemma dict_pop_gone s d v d' :
  dict_okb d = true -> dict_pop (KStr s) d = Some (v, d') ->
  dict_mem (KStr s) d' = false.
Proof.
  revert d'. induction d as [| [k' v'] rest IH]; simpl; intros d'; [discriminate |].
  intros [Hfresh Hrest]%andb_prop.
  destruct (key_eqb k' (KStr s)) eqn:Hk.
  - intros H. injection H as _ <-.
    apply key_eqb_str_r in Hk. subst k'.
    now destruct (dict_mem (KStr s) rest).
  - destruct (dict_pop (KStr s) rest) as [[x rest'] |] eqn:Hp; [| discriminate].
    intros H. injection H as <- <-. simpl. rewrite Hk. eauto.
Qed.

Lemma dict_pop_forallb (P : pykey * json -> bool) s d v d' :
  forallb P d = true -> dict_pop (KStr s) d = Some (v, d') ->
  P (KStr s, v) = true /\ forallb P d' = true.
Proof.
  revert d'. induction d as [| [k' v'] rest IH]; simpl; intros d'; [discriminate |].
  intros [Hhd Hrest]%andb_prop.
  destruct (key_eqb k' (KStr s)) eqn:Hk.
  - intros H. injection H as <- <-.
    apply key_eqb_str_r in Hk. subst k'. auto.
  - destruct (dict_pop (KStr s) rest) as [[x rest'] |] eqn:Hp; [| discriminate].
    intros H. injection H as <- <-. simpl.
    destruct (IH rest' Hrest eq_refl) as [? ?].
    split; [assumption |]. now rewrite Hhd.
Qed.

End PyFacts.

(** ** The client: callbacks and the wait loop *)

Module ClientProofs.
Import Py Client PyFacts.

Section WithLibraries.

Variable json_loads : string -> option json.
Variable py_repr : json -> string.

Local Abbreviation on_message := (on_message json_loads).
Local Abbreviation callback := (callback json_loads).
Local Abbreviation deliver := (deliver json_loads).
Local Abbreviation wait_for_response := (wait_for_response json_loads).

(** [on_message] by cases on what the message parses to. *)
Lemma on_message_cases message c :
  match json_loads message with
  | None => on_message message c = (Return tt, c)
  | Some (JObj fields) =>
      match obj_get "command_id" fields with
      | Some kv =>
          match key_of kv with
          | Some k =>
              on_message message c =
                (Return tt, set_responses (dict_set k (JObj fields) (responses c)) c)
          | None => on_message message c = (Raise TypeError, c)
          end
      | None =>
          on_message message c =
            (Return tt,
             if is_str "connected" (default JNull (obj_get "type" fields))
             then set_connected true c else c)
      end
  | Some _ => exists e, on_message message c = (Raise e, c)
  end.
Proof.
  unfold on_message.
  destruct (json_loads message) as [data |]; [| reflexivity].
  destruct data as [| b | n | f | s | items | fields]; simpl; eauto.
  - destruct (str_contains "command_id" s); simpl; eauto.
  - destruct (existsb (is_str "command_id") items); simpl; eauto.
  - destruct (obj_get "command_id" fields) as [kv |]; simpl.
    + unfold dict_setitem. destruct (key_of kv); reflexivity.
    + destruct (obj_get "type" fields) as [ty |]; simpl; [| reflexivity].
      destruct (is_str "connected" ty); reflexivity.
Qed.

(** The callbacks touch the mailbox and the flag, nothing else. *)
Lemma on_message_frame message c :
  let c' := snd (on_message message c) in
  url c' = url c /\ command_counter c' = command_counter c /\ ws_sent c' = ws_sent c.
Proof.
  pose proof (on_message_cases message c) as H.
  destruct (json_loads message) as [data |]; [| now rewrite H].
  destruct data as [| b | n | f | s | items | fields];
    try (destruct H as [e ->]; now simpl).
  destruct (obj_get "command_id" fields) as [kv |].
  - destruct (key_of kv); now rewrite H.
  - rewrite H. simpl. now destruct (is_str _ _).
Qed.

Lemma callback_frame ev c :
  command_counter (callback ev c) = command_counter c /\
  ws_sent (callback ev c) = ws_sent c.
Proof.
  destruct ev as [| message | |]; simpl; auto.
  destruct (on_message_frame message c) as (_ & ? & ?). auto.
Qed.

(** A callback never takes a string key out of the mailbox. *)
Lemma callback_mem ev c s :
  dict_mem (KStr s) (responses c) = true ->
  dict_mem (KStr s) (responses (callback ev c)) = true.
Proof.
  intros Hm. destruct ev as [| message | |]; simpl; auto.
  pose proof (on_message_cases message c) as H.
  destruct (json_loads message) as [data |]; [| now rewrite H].
  destruct data as [| b | n | f | t | items | fields];
    try (destruct H as [e ->]; now simpl).
  destruct (obj_get "command_id" fields) as [kv |].
  - destruct (key_of kv); rewrite H; simpl; auto using dict_mem_set.
  - rewrite H. simpl. now destruct (is_str _ _).
Qed.

Lemma entry_okb_command_id k kv fields :
  obj_get "command_id" fields = Some kv -> key_of kv = Some k ->
  forall k', k' = k \/ key_eqb k' k = true -> entry_okb (k', JObj fields) = true.
Proof.
  intros Hget Hkey k' Hk.
  destruct k' as [| n | f | s]; simpl; try reflexivity.
  assert (k = KStr s) as ->.
  { destruct Hk as [<- | Hk]; [reflexivity |]. now apply key_eqb_str_l in Hk. }
  apply key_of_str in Hkey. subst kv.
  rewrite Hget. apply String.eqb_refl.
Qed.

Lemma forallb_entry_set k kv fields d :
  obj_get "command_id" fields = Some kv -> key_of kv = Some k ->
  forallb entry_okb d = true ->
  forallb entry_okb (dict_set k (JObj fields) d) = true.
Proof.
  intros Hget Hkey.
  pose proof (entry_okb_command_id k kv fields Hget Hkey) as Hnew.
  induction d as [| [k' v'] rest IH]; simpl.
  - intros _. rewrite andb_true_r. apply Hnew. now left.
  - intros [Hhd Hrest]%andb_prop.
    destruct (key_eqb k' k) eqn:Hk; simpl.
    + rewrite Hrest, andb_true_r. apply Hnew. now right.
    + now rewrite Hhd, IH.
Qed.

(** The callbacks keep the invariant of the mailbox. *)
Lemma callback_okb ev c : client_okb c = true -> client_okb (callback ev c) = true.
Proof.
  intros Hok. destruct ev as [| message | |]; simpl; auto.
  pose proof (on_message_cases message c) as H.
  destruct (json_loads message) as [data |]; [| now rewrite H].
  destruct data as [| b | n | f | t | items | fields];
    try (destruct H as [e ->]; now simpl).
  destruct (obj_get "command_id" fields) as [kv |] eqn:Hget.
  - destruct (key_of kv) as [k |] eqn:Hkey; rewrite H; simpl; [| assumption].
    unfold client_okb in *. simpl.
    apply andb_prop in Hok as [Hd He].
    rewrite dict_okb_set by assumption.
    now rewrite (forallb_entry_set k kv fields).
  - rewrite H. simpl. now destruct (is_str _ _).
Qed.

Lemma deliver_cons_recv t ev trace c :
  deliver (Recv t ev :: trace) c = deliver trace (callback ev c).
Proof. reflexivity. Qed.

Lemma deliver_cons_poll now trace c : deliver (Poll now :: trace) c = deliver trace c.
Proof. reflexivity. Qed.

Lemma deliver_app pre post c : deliver (pre ++ post) c = deliver post (deliver pre c).
Proof. unfold deliver. apply fold_left_app. Qed.

Lemma deliver_mem trace c s :
  dict_mem (KStr s) (responses c) = true ->
  dict_mem (KStr s) (responses (deliver trace c)) = true.
Proof.
  revert c. induction trace as [| [t ev | now] trace IH]; intros c Hm.
  - assumption.
  - rewrite deliver_cons_recv. apply IH. now apply callback_mem.
  - rewrite deliver_cons_poll. now apply IH.
Qed.

Lemma deliver_okb trace c : client_okb c = true -> client_okb (deliver trace c) = true.
Proof.
  revert c. induction trace as [| [t ev | now] trace IH]; intros c Hok.
  - assumption.
  - rewrite deliver_cons_recv. apply IH. now apply callback_okb.
  - rewrite deliver_cons_poll. now apply IH.
Qed.

Lemma deliver_frame trace c :
  command_counter (deliver trace c) = command_counter c /\
  ws_sent (deliver trace c) = ws_sent c.
Proof.
  revert c. induction trace as [| [t ev | now] trace IH]; intros c.
  - auto.
  - rewrite deliver_cons_recv.
    destruct (IH (callback ev c)) as [-> ->]. apply callback_frame.
  - rewrite deliver_cons_poll. apply IH.
Qed.


(** Sending a command and running a callback commute: the first
    touches the counter and the socket, the second the mailbox and the
    flag. *)
Lemma callback_issue ev command_type params c :
  callback ev (issue command_type params c) = issue command_type params (callback ev c).
Proof.
  destruct ev as [| message | |]; simpl; try reflexivity.
  pose proof (on_message_cases message c) as H1.
  pose proof (on_message_cases message (issue command_type params c)) as H2.
  destruct (json_loads message) as [data |]; [| now rewrite H1, H2].
  destruct data as [| b | n | f | t | items | fields];
    try (destruct H1 as [e1 ->]; destruct H2 as [e2 ->]; reflexivity).
  destruct (obj_get "command_id" fields) as [kv |].
  - destruct (key_of kv); rewrite H1, H2; reflexivity.
  - rewrite H1, H2. simpl. now destruct (is_str _ _).
Qed.

Lemma deliver_issue trace command_type params c :
  deliver trace (issue command_type params c) =
  issue command_type params (deliver trace c).
Proof.
  revert c. induction trace as [| [t ev | now] trace IH]; intros c.
  - reflexivity.
  - rewrite !deliver_cons_recv, callback_issue. apply IH.
  - rewrite !deliver_cons_poll. apply IH.
Qed.

Section Waiting.

Variable command_id : string.
Variable timeout : Z.
Variable start_time : Q.

Local Abbreviation wait := (wait_for_response command_id timeout start_time).

(** The loop stops in a state the receive thread reached on a prefix
    of the schedule. *)
Lemma wait_client trace c :
  exists pre post, trace = pre ++ post /\ waited_client (wait trace c) = deliver pre c.
Proof.
  revert c. induction trace as [| [t ev | now] trace IH]; intros c; simpl.
  - exists [], []. auto.
  - destruct (IH (callback ev c)) as (pre & post & -> & Hc).
    exists (Recv t ev :: pre), post. auto.
  - destruct (dict_mem (KStr command_id) (responses c)).
    { exists [], (Poll now :: trace). auto. }
    destruct (expired timeout start_time now).
    { exists [], (Poll now :: trace). auto. }
    destruct (IH c) as (pre & post & -> & Hc).
    exists (Poll now :: pre), post. auto.
Qed.

Lemma wait_found_mem trace c c3 :
  wait trace c = Found c3 -> dict_mem (KStr command_id) (responses c3) = true.
Proof.
  revert c. induction trace as [| [t ev | now] trace IH]; intros c; simpl.
  - discriminate.
  - apply IH.
  - destruct (dict_mem (KStr command_id) (responses c)) eqn:Hm.
    { intros H. injection H as <-. assumption. }
    destruct (expired timeout start_time now); [discriminate |]. apply IH.
Qed.


(** Over a prefix without an expired poll, the loop either finds the
    id or goes on from what the receive thread made of the client. *)
Lemma wait_prefix pre rest c :
  (forall now, Poll now ∈ pre -> expired timeout start_time now = false) ->
  (exists c3, wait (pre ++ rest) c = Found c3 /\
              dict_mem (KStr command_id) (responses (deliver pre c)) = true) \/
  wait (pre ++ rest) c = wait rest (deliver pre c).
Proof.
  revert c. induction pre as [| [t ev | now] pre IH]; intros c Hpolls.
  - now right.
  - rewrite deliver_cons_recv. simpl. apply IH.
    intros n Hn. apply Hpolls. apply elem_of_cons; now right.
  - rewrite deliver_cons_poll. simpl.
    destruct (dict_mem (KStr command_id) (responses c)) eqn:Hm.
    { left. exists c. split; [reflexivity |]. now apply deliver_mem. }
    rewrite (Hpolls now) by (apply elem_of_cons; now left).
    apply IH. intros n Hn. apply Hpolls. apply elem_of_cons; now right.
Qed.

(** Callbacks alone do not end the loop. *)
Lemma wait_no_poll pre rest c :
  (forall now, Poll now ∉ pre) ->
  wait (pre ++ rest) c = wait rest (deliver pre c).
Proof.
  revert c. induction pre as [| [t ev | now] pre IH]; intros c Hnone.
  - reflexivity.
  - rewrite deliver_cons_recv. simpl. apply IH.
    intros n Hn. apply (Hnone n). apply elem_of_cons. now right.
  - exfalso. apply (Hnone now). apply elem_of_cons. now left.
Qed.

(** Over passes made in time that see no entry for the id, the loop
    goes on from what the receive thread made of the client. *)
Lemma wait_absent_prefix pre rest c :
  (forall now, Poll now ∈ pre -> expired timeout start_time now = false) ->
  (forall pre1 n rest1, pre = pre1 ++ Poll n :: rest1 ->
     dict_mem (KStr command_id) (responses (deliver pre1 c)) = false) ->
  wait (pre ++ rest) c = wait rest (deliver pre c).
Proof.
  revert c. induction pre as [| [t ev | now] pre IH]; intros c Hpolls Habsent.
  - reflexivity.
  - rewrite deliver_cons_recv. simpl. apply IH.
    + intros n Hn. apply Hpolls. apply elem_of_cons. now right.
    + intros pre1 n rest1 ->.
      apply (Habsent (Recv t ev :: pre1) n rest1). reflexivity.
  - rewrite deliver_cons_poll. simpl.
    pose proof (Habsent [] now pre eq_refl) as Hfirst.
    change (dict_mem (KStr command_id) (responses c) = false) in Hfirst.
    rewrite Hfirst.
    rewrite (Hpolls now) by (apply elem_of_cons; now left).
    apply IH.
    + intros n Hn. apply Hpolls. apply elem_of_cons. now right.
    + intros pre1 n rest1 ->.
      apply (Habsent (Poll now :: pre1) n rest1). reflexivity.
Qed.

End Waiting.

(** Lines 168-178 on a mailbox that holds the id. *)
Lemma take_response_found command_id c :
  client_okb c = true ->
  dict_mem (KStr command_id) (responses c) = true ->
  exists response d,
    dict_get (KStr command_id) (responses c) = Some (JObj response) /\
    dict_pop (KStr command_id) (responses c) = Some (JObj response, d) /\
    obj_get "command_id" response = Some (JStr command_id) /\
    dict_mem (KStr command_id) d = false /\
    take_response py_repr command_id c =
      (if truthy (default JNull (obj_get "success" response))
       then Return (default (JObj []) (obj_get "result" response))
       else Raise (Exception ("Command failed: " +:+
              py_str py_repr (default (JStr "Unknown error") (obj_get "error" response)))),
       set_responses d c).
Proof.
  intros [Hd He]%andb_prop Hm.
  destruct (dict_pop_mem _ _ Hm) as (v & d & Hpop).
  destruct (dict_pop_forallb entry_okb _ _ _ _ He Hpop) as [Hv _].
  destruct v as [| b | n | f | s | items | response]; try discriminate.
  simpl in Hv.
  destruct (obj_get "command_id" response) as [[| | | | s | |] |] eqn:Hid;
    try discriminate.
  apply String.eqb_eq in Hv. subst s.
  exists response, d. repeat split.
  - now apply (dict_pop_get _ _ _ d).
  - assumption.
  - assumption.
  - now apply (dict_pop_gone _ _ _ _ Hd Hpop).
  - unfold take_response. rewrite Hpop. simpl.
    destruct (obj_get "success" response) as [success |]; simpl.
    + destruct (truthy success); simpl; [reflexivity |].
      now destruct (obj_get "error" response).
    + now destruct (obj_get "error" response).
Qed.

Lemma expired_false timeout start_time now :
  (now - start_time <= inject_Z timeout)%Q -> expired timeout start_time now = false.
Proof.
  intros H. unfold expired. apply Qle_bool_iff in H. now rewrite H.
Qed.

Lemma expired_true timeout start_time now :
  (inject_Z timeout < now - start_time)%Q -> expired timeout start_time now = true.
Proof.
  intros H. unfold expired.
  destruct (Qle_bool (now - start_time) (inject_Z timeout)) eqn:Hle; [| reflexivity].
  apply Qle_bool_iff in Hle. exfalso. apply (Qlt_not_le _ _ H Hle).
Qed.

(** A reply with a string id is in the mailbox once its callback ran. *)
Lemma callback_files message fields s c :
  json_loads message = Some (JObj fields) ->
  obj_get "command_id" fields = Some (JStr s) ->
  dict_mem (KStr s) (responses (callback (OnMessage message) c)) = true.
Proof.
  intros Hload Hid. simpl.
  pose proof (on_message_cases message c) as H.
  rewrite Hload, Hid in H. simpl in H. rewrite H. simpl.
  apply dict_mem_set_eq.
Qed.

Lemma callback_dict_okb ev c :
  dict_okb (responses c) = true -> dict_okb (responses (callback ev c)) = true.
Proof.
  intros Hok. destruct ev as [| message | |]; simpl; auto.
  pose proof (on_message_cases message c) as H.
  destruct (json_loads message) as [data |]; [| now rewrite H].
  destruct data as [| b | n | f | t | items | fields];
    try (destruct H as [e ->]; now simpl).
  destruct (obj_get "command_id" fields) as [kv |].
  - destruct (key_of kv); rewrite H; simpl; auto using dict_okb_set.
  - rewrite H. simpl. now destruct (is_str _ _).
Qed.

Lemma deliver_dict_okb trace c :
  dict_okb (responses c) = true -> dict_okb (responses (deliver trace c)) = true.
Proof.
  revert c. induction trace as [| [t ev | now] trace IH]; intros c Hok.
  - assumption.
  - rewrite deliver_cons_recv. apply IH. now apply callback_dict_okb.
  - rewrite deliver_cons_poll. now apply IH.
Qed.

(** Lines 168-178 change the mailbox only, by the [pop]. *)
Lemma take_response_pop command_id c v d :
  dict_pop (KStr command_id) (responses c) = Some (v, d) ->
  exists r, take_response py_repr command_id c = (r, set_responses d c).
Proof.
  intros Hpop. unfold take_response. rewrite Hpop.
  destruct (py_get v "success" JNull) as [success | e]; [| eauto].
  destruct (negb (truthy success)); [| eauto].
  destruct (py_get v "error" (JStr "Unknown error")); eauto.
Qed.

Lemma take_response_frame command_id c :
  let c' := snd (take_response py_repr command_id c) in
  command_counter c' = command_counter c /\ ws_sent c' = ws_sent c.
Proof.
  destruct (dict_pop (KStr command_id) (responses c)) as [[v d] |] eqn:Hpop.
  - destruct (take_response_pop _ _ _ _ Hpop) as [r ->]. now simpl.
  - unfold take_response. rewrite Hpop. now simpl.
Qed.

(** The state the wait loop stops in, seen from the client the call
    started with. *)
Lemma wait_issue command_id timeout start_time trace command_type params c :
  exists pre post,
    trace = pre ++ post /\
    waited_client (wait_for_response command_id timeout start_time trace
                                     (issue command_type params c)) =
      issue command_type params (deliver pre c).
Proof.
  destruct (wait_client command_id timeout start_time trace
                        (issue command_type params c)) as (pre & post & Htr & Hc).
  exists pre, post. now rewrite Hc, deliver_issue.
Qed.

(** The guard of lines 141-142: nothing happens to a client that is
    not connected. *)
Lemma send_command_guard command_type params timeout start_time trace c :
  connected c = false ->
  _send_command json_loads py_repr command_type params timeout start_time trace c =
    (Some (Raise (Exception "Not connected to server")), c).
Proof. intros Hconn. unfold _send_command. now rewrite Hconn. Qed.

(** A reply whose ['command_id'] is a list or a dict cannot be a key:
    the assignment of line 73 raises and the mailbox stays as it is. *)
Lemma on_message_unhashable message fields kv c :
  json_loads message = Some (JObj fields) ->
  obj_get "command_id" fields = Some kv ->
  key_of kv = None ->
  on_message message c = (Raise TypeError, c).
Proof.
  intros Hload Hid Hkey.
  pose proof (on_message_cases message c) as H.
  now rewrite Hload, Hid, Hkey in H.
Qed.

(** The call that finds its id answers from the reply filed under it. *)
Lemma send_command_found command_type params timeout start_time trace c c3 :
  connected c = true ->
  client_okb c = true ->
  wait_for_response (next_command_id c) timeout start_time trace
                    (issue command_type params c) = Found c3 ->
  exists response d,
    dict_get (KStr (next_command_id c)) (responses c3) = Some (JObj response) /\
    obj_get "command_id" response = Some (JStr (next_command_id c)) /\
    dict_mem (KStr (next_command_id c)) d = false /\
    _send_command json_loads py_repr command_type params timeout start_time trace c =
      (Some (if truthy (default JNull (obj_get "success" response))
             then Return (default (JObj []) (obj_get "result" response))
             else Raise (Exception ("Command failed: " +:+
                    py_str py_repr
                      (default (JStr "Unknown error") (obj_get "error" response))))),
       set_responses d c3).
Proof.
  intros Hconn Hok Hw.
  assert (Hok3 : client_okb c3 = true).
  { destruct (wait_issue (next_command_id c) timeout start_time trace
                         command_type params c) as (pre & post & _ & Hc).
    rewrite Hw in Hc. simpl in Hc. subst c3.
    change (client_okb (deliver pre c) = true). now apply deliver_okb. }
  pose proof (wait_found_mem _ _ _ _ _ _ Hw) as Hm.
  destruct (take_response_found _ _ Hok3 Hm)
    as (response & d & Hget & Hpop & Hid & Hgone & Htake).
  exists response, d. repeat split; try assumption.
  unfold _send_command. rewrite Hconn. simpl negb. cbv iota.
  rewrite Hw, Htake. reflexivity.
Qed.





(** Whatever the call does after the guard, the socket has got the one
    frame of [issue] and the counter is one up. *)
Lemma send_command_frame_counter command_type params timeout start_time trace c :
  connected c = true ->
  let c' := snd (_send_command json_loads py_repr command_type params timeout
                               start_time trace c) in
  command_counter c' = (command_counter c + 1)%Z /\
  ws_sent c' = ws_sent c ++ [command (next_command_id c) command_type params].
Proof.
  intros Hconn. unfold _send_command. rewrite Hconn. simpl negb. cbv iota.
  destruct (wait_issue (next_command_id c) timeout start_time trace
                       command_type params c) as (pre & post & _ & Hc).
  destruct (deliver_frame pre c) as [Hn Hs].
  destruct (wait_for_response _ _ _ _ _) as [c3 | c3 | c3]; simpl in Hc; subst c3.
  - pose proof (take_response_frame (next_command_id c)
                  (issue command_type params (deliver pre c))) as [Hn' Hs'].
    destruct (take_response _ _ _) as [r c4]. simpl in *.
    rewrite Hn', Hs', Hn, Hs. auto.
  - simpl. rewrite Hn, Hs. auto.
  - simpl. rewrite Hn, Hs. auto.
Qed.

(** C2, as amended.  On a connected client, when the mailbox holds no
    entry for the id of the call at the first pass of the loop at which
    more than [timeout] seconds have gone by since [start_time], the
    call raises [Exception] with the message
    ["Command timeout after <timeout>s"]; the socket has got the one
    frame of the call and no other. *)
Theorem send_command_timeout command_type params timeout start_time
    (trace pre post : list step) now c :
  connected c = true ->
  trace = pre ++ Poll now :: post ->
  (forall n, Poll n ∈ pre -> (n - start_time <= inject_Z timeout)%Q) ->
  (inject_Z timeout < now - start_time)%Q ->
  dict_mem (KStr (next_command_id c)) (responses (deliver pre c)) = false ->
  exists c',
    _send_command json_loads py_repr command_type params timeout start_time trace c =
      (Some (Raise (Exception ("Command timeout after " +:+ pretty timeout +:+ "s"))),
       c') /\
    ws_sent c' = ws_sent c ++ [command (next_command_id c) command_type params].
Proof.
  intros Hconn -> Hpolls Hnow Habsent.
  pose proof (send_command_frame_counter command_type params timeout start_time
                (pre ++ Poll now :: post) c Hconn) as [_ Hsent].
  revert Hsent. unfold _send_command. rewrite Hconn. simpl negb. cbv iota.
  destruct (wait_prefix (next_command_id c) timeout start_time pre
              (Poll now :: post) (issue command_type params c))
    as [(c3 & _ & Hm) | ->].
  - intros n Hn. apply expired_false. now apply Hpolls.
  - rewrite deliver_issue in Hm. simpl in Hm. congruence.
  - simpl. rewrite (expired_true _ _ _ Hnow), !deliver_issue.
    simpl responses. rewrite Habsent. eauto.
Qed.

(** C3.  On a connected client with a well-formed mailbox, a call whose
    loop finds its id takes the entry out before it returns or raises:
    the mailbox afterwards is the one the loop stopped at without that
    entry, and the id is no key of it, whatever the reply says. *)
Theorem send_command_clears_entry command_type params timeout start_time trace c c3 :
  connected c = true ->
  dict_okb (responses c) = true ->
  wait_for_response (next_command_id c) timeout start_time trace
                    (issue command_type params c) = Found c3 ->
  exists r v c',
    _send_command json_loads py_repr command_type params timeout start_time trace c =
      (Some r, c') /\
    dict_pop (KStr (next_command_id c)) (responses c3) = Some (v, responses c') /\
    dict_mem (KStr (next_command_id c)) (responses c') = false.
Proof.
  intros Hconn Hok Hw.
  assert (Hok3 : dict_okb (responses c3) = true).
  { destruct (wait_issue (next_command_id c) timeout start_time trace
                         command_type params c) as (pre & post & _ & Hc).
    rewrite Hw in Hc. simpl in Hc. subst c3. simpl.
    now apply deliver_dict_okb. }
  pose proof (wait_found_mem _ _ _ _ _ _ Hw) as Hm.
  destruct (dict_pop_mem _ _ Hm) as (v & d & Hpop).
  destruct (take_response_pop _ _ _ _ Hpop) as [r Htake].
  exists r, v, (set_responses d c3).
  unfold _send_command. rewrite Hconn. simpl negb. cbv iota.
  rewrite Hw, Htake. repeat split; [assumption |].
  simpl. now apply (dict_pop_gone _ _ _ _ Hok3 Hpop).
Qed.

(** C4, as amended.  A call on a connected client hands the socket
    exactly one frame, the object with the three keys ['command_id'],
    ['type'] and ['params'], whose ['type'] is the command type and
    whose ['params'] are the parameters of the call. *)
Theorem send_command_frame command_type params timeout start_time trace c :
  connected c = true ->
  ws_sent (snd (_send_command json_loads py_repr command_type params timeout
                              start_time trace c)) =
    ws_sent c ++ [JObj [("command_id", JStr (next_command_id c));
                        ("type", JStr command_type);
                        ("params", params)]].
Proof.
  intros Hconn.
  now destruct (send_command_frame_counter command_type params timeout start_time
                  trace c Hconn) as [_ ->].
Qed.

(** C5, as amended.  A message that parses to an object with a
    hashable ['command_id'] is filed in the mailbox under that value (a
    string id then looks it up), leaving the flag alone; the flag goes
    from [False] to [True] only on an object without ['command_id']
    whose ['type'] is ['connected'], and does so on every such object;
    a message that does not parse changes nothing. *)
Theorem on_message_dispatch message c :
  (forall fields kv k,
     json_loads message = Some (JObj fields) ->
     obj_get "command_id" fields = Some kv ->
     key_of kv = Some k ->
     on_message message c =
       (Return tt, set_responses (dict_set k (JObj fields) (responses c)) c) /\
     (forall s, k = KStr s ->
        dict_get k (responses (snd (on_message message c))) = Some (JObj fields))) /\
  (connected c = false ->
   connected (snd (on_message message c)) = true ->
   exists fields,
     json_loads message = Some (JObj fields) /\
     obj_get "command_id" fields = None /\
     obj_get "type" fields = Some (JStr "connected")) /\
  (forall fields,
     json_loads message = Some (JObj fields) ->
     obj_get "command_id" fields = None ->
     obj_get "type" fields = Some (JStr "connected") ->
     on_message message c = (Return tt, set_connected true c)) /\
  (json_loads message = None -> on_message message c = (Return tt, c)).
Proof.
  pose proof (on_message_cases message c) as H.
  split; [| split; [| split]].
  - intros fields kv k Hload Hid Hkey. rewrite Hload, Hid, Hkey in H.
    split; [exact H |].
    intros s ->. rewrite H. simpl. apply dict_get_set_eq.
  - intros Hoff Hon.
    destruct (json_loads message) as [data |];
      [| rewrite H in Hon; simpl in Hon; congruence].
    destruct data as [| b | n | f | t | items | fields];
      try (destruct H as [e H]; rewrite H in Hon; simpl in Hon; congruence).
    exists fields.
    destruct (obj_get "command_id" fields) as [kv |].
    { destruct (key_of kv); rewrite H in Hon; simpl in Hon; congruence. }
    rewrite H in Hon. simpl in Hon.
    destruct (obj_get "type" fields) as [ty |]; simpl in Hon; [| congruence].
    destruct ty as [| | | | t | |]; simpl in Hon; try congruence.
    destruct (String.eqb t "connected") eqn:Ht; [| congruence].
    apply String.eqb_eq in Ht. subst t. auto.
  - intros fields Hload Hid Hty. rewrite Hload, Hid, Hty in H. exact H.
  - intros Hload. rewrite Hload in H. exact H.
Qed.

Lemma take_response_okb command_id c :
  client_okb c = true ->
  client_okb (snd (take_response py_repr command_id c)) = true.
Proof.
  intros Hok.
  destruct (dict_pop (KStr command_id) (responses c)) as [[v d] |] eqn:Hpop.
  - destruct (take_response_pop _ _ _ _ Hpop) as [r ->]. simpl.
    apply andb_prop in Hok as [Hd He]. unfold client_okb. simpl.
    rewrite (dict_okb_pop _ _ _ _ Hd Hpop).
    now destruct (dict_pop_forallb entry_okb _ _ _ _ He Hpop) as [_ ->].
  - unfold take_response. now rewrite Hpop.
Qed.

(** [_send_command] keeps the invariant of the mailbox. *)
Lemma send_command_okb command_type params timeout start_time trace c :
  client_okb c = true ->
  client_okb (snd (_send_command json_loads py_repr command_type params timeout
                                 start_time trace c)) = true.
Proof.
  intros Hok. unfold _send_command.
  destruct (connected c); simpl negb; cbv iota; [| assumption].
  destruct (wait_issue (next_command_id c) timeout start_time trace
                       command_type params c) as (pre & post & _ & Hc).
  assert (Hok' : client_okb (issue command_type params (deliver pre c)) = true).
  { change (client_okb (deliver pre c) = true). now apply deliver_okb. }
  destruct (wait_for_response _ _ _ _ _) as [c3 | c3 | c3]; simpl in Hc; subst c3.
  - pose proof (take_response_okb (next_command_id c) _ Hok') as Hok4.
    now destruct (take_response _ _ _).
  - assumption.
  - assumption.
Qed.

(** Every client a program reaches from [__init__] has a well-formed
    mailbox. *)
Lemma reachable_okb u acts :
  client_okb (run json_loads py_repr acts (init u)) = true.
Proof.
  assert (H : forall c, client_okb c = true ->
                        client_okb (run json_loads py_repr acts c) = true).
  { induction acts as [| a acts IH]; intros c Hok; [assumption |].
    simpl. apply IH.
    destruct a as [ev | command_type params timeout start_time trace]; simpl.
    - now apply callback_okb.
    - now apply send_command_okb. }
  now apply H.
Qed.

Lemma command_id_of_inj a b : command_id_of a = command_id_of b -> a = b.
Proof.
  unfold command_id_of. intros H.
  apply (inj (String.app "cmd-")) in H. now apply (inj pretty) in H.
Qed.

Lemma issued_ids_NoDup n : NoDup (issued_ids n).
Proof.
  unfold issued_ids. apply NoDup_ListNoDup.
  apply Injective_map_NoDup; [| apply seq_NoDup].
  intros a b H.
  assert (E : command_id_of (Z.of_nat a) = command_id_of (Z.of_nat b)) by congruence.
  apply command_id_of_inj in E. lia.
Qed.

Lemma issued_ids_S n :
  issued_ids (S n) = issued_ids n ++ [Some (JStr (command_id_of (Z.of_nat (S n))))].
Proof. unfold issued_ids. now rewrite seq_S, map_app. Qed.

Lemma act_counted c a : counted c -> counted (act json_loads py_repr c a).
Proof.
  intros [Hpos Hids]. destruct a as [ev | command_type params timeout start_time trace].
  - simpl. unfold counted, sent_ids in *.
    destruct (callback_frame ev c) as [-> ->]. auto.
  - simpl. destruct (connected c) eqn:Hconn.
    + destruct (send_command_frame_counter command_type params timeout start_time
                  trace c Hconn) as [Hn Hs].
      unfold counted, sent_ids in *. rewrite Hn, Hs, map_app, Hids.
      split; [lia |].
      replace (Z.to_nat (command_counter c + 1)) with (S (Z.to_nat (command_counter c)))
        by lia.
      rewrite issued_ids_S. simpl. unfold next_command_id.
      do 5 f_equal. lia.
    + unfold _send_command. rewrite Hconn. simpl. now split.
Qed.

Lemma run_counted acts c : counted c -> counted (run json_loads py_repr acts c).
Proof.
  revert c. induction acts as [| a acts IH]; intros c Hc; [assumption |].
  simpl. apply IH. now apply act_counted.
Qed.

(** C6, as amended.  A call on a connected client puts the counter up
    by one and sends its frame under the id ["cmd-<counter>"] of the
    new count; whatever a program does with a client from [__init__]
    on, no two frames it sends share an id; and the value a call
    returns is the ['result'] of the reply the loop found under the id
    of that call. *)
Theorem command_ids_fresh :
  (forall command_type params timeout start_time trace c,
     connected c = true ->
     let c' := snd (_send_command json_loads py_repr command_type params timeout
                                  start_time trace c) in
     command_counter c' = (command_counter c + 1)%Z /\
     ws_sent c' =
       ws_sent c ++
       [command ("cmd-" +:+ pretty (command_counter c + 1)%Z) command_type params]) /\
  (forall u acts, NoDup (sent_ids (run json_loads py_repr acts (init u)))) /\
  (forall command_type params timeout start_time trace c v c',
     connected c = true ->
     client_okb c = true ->
     _send_command json_loads py_repr command_type params timeout start_time trace c =
       (Some (Return v), c') ->
     exists c3 response,
       wait_for_response ("cmd-" +:+ pretty (command_counter c + 1)%Z) timeout
         start_time trace (issue command_type params c) = Found c3 /\
       dict_get (KStr ("cmd-" +:+ pretty (command_counter c + 1)%Z)) (responses c3) =
         Some (JObj response) /\
       obj_get "command_id" response =
         Some (JStr ("cmd-" +:+ pretty (command_counter c + 1)%Z)) /\
       v = default (JObj []) (obj_get "result" response)).
Proof.
  split; [| split].
  - intros command_type params timeout start_time trace c Hconn.
    apply (send_command_frame_counter command_type params timeout start_time trace c
             Hconn).
  - intros u acts.
    destruct (run_counted acts (init u)) as [_ ->]; [| apply issued_ids_NoDup].
    split; [simpl; lia | reflexivity].
  - intros command_type params timeout start_time trace c v c' Hconn Hok Hsend.
    change ("cmd-" +:+ pretty (command_counter c + 1)%Z) with (next_command_id c).
    destruct (wait_for_response (next_command_id c) timeout start_time trace
                (issue command_type params c)) as [c3 | c3 | c3] eqn:Hw.
    + destruct (send_command_found command_type params timeout start_time trace c c3
                  Hconn Hok Hw) as (response & d & Hget & Hid & _ & Heq).
      rewrite Heq in Hsend. exists c3, response.
      destruct (truthy _); [| discriminate].
      injection Hsend as <- _. auto.
    + unfold _send_command in Hsend. rewrite Hconn in Hsend. simpl negb in Hsend.
      cbv iota in Hsend. rewrite Hw in Hsend. discriminate.
    + unfold _send_command in Hsend. rewrite Hconn in Hsend. simpl negb in Hsend.
      cbv iota in Hsend. rewrite Hw in Hsend. discriminate.
Qed.

End WithLibraries.

(** *** The claims on concrete calls *)

Import Scenario.



(** What the call of the witness does, evaluated. *)
Example send_command_reply_failed :
  fst (_send_command loads repr "navigate" navigate_params 30 0
         [Poll (1 # 10); Recv (15 # 100) (OnMessage "fail-1"); Poll (2 # 10)] ready) =
  Some (Raise (Exception "Command failed: No such tab")).
Proof. reflexivity. Qed.

Example send_command_reply_result :
  fst (_send_command loads repr "navigate" navigate_params 30 0
         [Poll (1 # 10); Recv (15 # 100) (OnMessage "ok-1"); Poll (2 # 10)] ready) =
  Some (Return (JObj [("url", JStr "https://example.com/")])).
Proof. reflexivity. Qed.

Example send_command_reply_no_result :
  fst (_send_command loads repr "navigate" navigate_params 30 0
         [Poll (1 # 10); Recv (15 # 100) (OnMessage "bare-1"); Poll (2 # 10)] ready) =
  Some (Return (JObj [])).
Proof. reflexivity. Qed.

(** Of two replies with the id that arrive between two passes, the
    call answers from the later one. *)
Example send_command_reply_latest :
  fst (_send_command loads repr "navigate" navigate_params 30 0
         [Poll (1 # 10); Recv (12 # 100) (OnMessage "ok-1");
          Recv (15 # 100) (OnMessage "fail-1"); Poll (2 # 10)] ready) =
  Some (Raise (Exception "Command failed: No such tab")).
Proof. reflexivity. Qed.

(** C2 as stated fails: a reply filed 30.02 s after the start, later
    than the timeout of 30 s, is found by the pass at 30.05 s because
    the pass before it, at 29.95 s, was still in time; the call returns
    the result instead of raising. *)
Lemma send_command_late_reply :
  let trace := [Poll (2995 # 100); Recv (3002 # 100) (OnMessage "ok-1");
                Poll (3005 # 100)] in
  connected ready = true /\
  no_response_within loads (next_command_id ready) 30 0 trace ready /\
  fst (_send_command loads repr "navigate" navigate_params 30 0 trace ready) =
    Some (Return (JObj [("url", JStr "https://example.com/")])).
Proof.
  split; [reflexivity |]. split; [| reflexivity].
  intros pre s post Htrace Hle.
  destruct pre as [| s1 [| s2 [| s3 pre]]]; simpl in Htrace.
  - injection Htrace as <- _. reflexivity.
  - injection Htrace as _ <- _. exfalso. revert Hle. unfold Qle. simpl. lia.
  - injection Htrace as _ _ <- _. exfalso. revert Hle. unfold Qle. simpl. lia.
  - destruct pre; discriminate.
Qed.

Lemma send_command_timeout_witness :
  exists c',
    _send_command loads repr "navigate" navigate_params 30 0
        [Poll (2995 # 100); Poll (3005 # 100); Recv (3010 # 100) (OnMessage "ok-1")]
        ready =
      (Some (Raise (Exception ("Command timeout after " +:+ pretty 30%Z +:+ "s"))), c') /\
    ws_sent c' =
      ws_sent ready ++ [command (next_command_id ready) "navigate" navigate_params].
Proof.
  apply (send_command_timeout loads repr "navigate" navigate_params 30 0
           [Poll (2995 # 100); Poll (3005 # 100); Recv (3010 # 100) (OnMessage "ok-1")]
           [Poll (2995 # 100)] [Recv (3010 # 100) (OnMessage "ok-1")]
           (3005 # 100) ready).
  - reflexivity.
  - reflexivity.
  - intros n Hn. apply elem_of_cons in Hn as [Hn | Hn].
    + injection Hn as ->. unfold Qle. simpl. lia.
    + now apply elem_of_nil in Hn.
  - unfold Qlt. simpl. lia.
  - reflexivity.
Defined.

Example send_command_timeout_message :
  fst (_send_command loads repr "navigate" navigate_params 30 0
         [Poll (2995 # 100); Poll (3005 # 100)] ready) =
  Some (Raise (Exception "Command timeout after 30s")).
Proof. reflexivity. Qed.

Lemma send_command_clears_entry_witness :
  exists r v c',
    _send_command loads repr "navigate" navigate_params 30 0
        [Recv (1 # 10) (OnMessage "fail-1"); Poll (2 # 10)] ready = (Some r, c') /\
    dict_pop (KStr (next_command_id ready))
             (responses (deliver loads [Recv (1 # 10) (OnMessage "fail-1")]
                                 (issue "navigate" navigate_params ready))) =
      Some (v, responses c') /\
    dict_mem (KStr (next_command_id ready)) (responses c') = false.
Proof.
  apply (send_command_clears_entry loads repr "navigate" navigate_params 30 0
           [Recv (1 # 10) (OnMessage "fail-1"); Poll (2 # 10)] ready).
  - reflexivity.
  - reflexivity.
  - reflexivity.
Defined.

(** C4 as stated fails: a client that is not connected raises at the
    guard of line 141 and hands the socket nothing. *)
Lemma send_command_guard_sends_nothing :
  connected fresh = false /\
  _send_command loads repr "navigate" navigate_params 30 0
      [Recv (1 # 10) (OnMessage "ok-1"); Poll (2 # 10)] fresh =
    (Some (Raise (Exception "Not connected to server")), fresh) /\
  ws_sent fresh = [].
Proof. repeat split. Qed.

Lemma send_command_frame_witness :
  ws_sent (snd (_send_command loads repr "navigate" navigate_params 30 0
                  [Poll (2995 # 100); Poll (3005 # 100)] ready)) =
    ws_sent ready ++ [JObj [("command_id", JStr (next_command_id ready));
                            ("type", JStr "navigate");
                            ("params", navigate_params)]].
Proof.
  apply (send_command_frame loads repr "navigate" navigate_params 30 0
           [Poll (2995 # 100); Poll (3005 # 100)] ready).
  reflexivity.
Defined.

(** C5 as stated fails: an object whose ['command_id'] is a list has
    the key, yet [self.responses[[]] = data] raises [TypeError] and
    nothing is stored. *)
Lemma on_message_unhashable_id :
  loads "odd" = Some (JObj [("command_id", JList [])]) /\
  obj_get "command_id" [("command_id", JList [])] = Some (JList []) /\
  on_message loads "odd" ready = (Raise TypeError, ready) /\
  responses ready = [].
Proof. repeat split. Qed.

Lemma on_message_dispatch_witness :
  (on_message loads "ok-1" ready =
     (Return tt,
      set_responses
        (dict_set (KStr "cmd-1")
           (JObj [("command_id", JStr "cmd-1"); ("success", JBool true);
                  ("result", JObj [("url", JStr "https://example.com/")])])
           (responses ready)) ready) /\
   dict_get (KStr "cmd-1") (responses (snd (on_message loads "ok-1" ready))) =
     Some (JObj [("command_id", JStr "cmd-1"); ("success", JBool true);
                 ("result", JObj [("url", JStr "https://example.com/")])])) /\
  (exists fields,
     loads "hello" = Some (JObj fields) /\
     obj_get "command_id" fields = None /\
     obj_get "type" fields = Some (JStr "connected")) /\
  on_message loads "hello" fresh = (Return tt, set_connected true fresh) /\
  on_message loads "{" ready = (Return tt, ready).
Proof.
  split; [| split; [| split]].
  - destruct (on_message_dispatch loads "ok-1" ready) as (H & _).
    destruct (H [("command_id", JStr "cmd-1"); ("success", JBool true);
                 ("result", JObj [("url", JStr "https://example.com/")])]
                (JStr "cmd-1") (KStr "cmd-1")) as [Hstore Hget]; try reflexivity.
    split; [exact Hstore |]. now apply (Hget "cmd-1").
  - destruct (on_message_dispatch loads "hello" fresh) as (_ & H & _).
    apply H; reflexivity.
  - destruct (on_message_dispatch loads "hello" fresh) as (_ & _ & H & _).
    apply (H [("type", JStr "connected")]); reflexivity.
  - destruct (on_message_dispatch loads "{" ready) as (_ & _ & _ & H).
    apply H. reflexivity.
Defined.

(** C6 as stated fails: the call of a client that is not connected
    leaves the counter where it was and uses no identifier. *)
Lemma send_command_guard_keeps_counter :
  connected fresh = false /\
  command_counter
    (snd (_send_command loads repr "navigate" navigate_params 30 0
            [Recv (1 # 10) (OnMessage "ok-1"); Poll (2 # 10)] fresh)) =
  command_counter fresh.
Proof. repeat split. Qed.

Lemma command_ids_fresh_witness :
  command_counter
    (snd (_send_command loads repr "navigate" navigate_params 30 0
            [Recv (1 # 10) (OnMessage "ok-1"); Poll (2 # 10)] ready)) =
    (command_counter ready + 1)%Z /\
  exists c3 response,
    wait_for_response loads ("cmd-" +:+ pretty (command_counter ready + 1)%Z) 30 0
        [Recv (1 # 10) (OnMessage "ok-1"); Poll (2 # 10)]
        (issue "navigate" navigate_params ready) = Found c3 /\
    dict_get (KStr ("cmd-" +:+ pretty (command_counter ready + 1)%Z)) (responses c3) =
      Some (JObj response) /\
    obj_get "command_id" response =
      Some (JStr ("cmd-" +:+ pretty (command_counter ready + 1)%Z)) /\
    JObj [("url", JStr "https://example.com/")] =
      default (JObj []) (obj_get "result" response).
Proof.
  destruct (command_ids_fresh loads repr) as (Hcount & _ & Hreply).
  split.
  - apply (Hcount "navigate" navigate_params 30%Z 0%Q
             [Recv (1 # 10) (OnMessage "ok-1"); Poll (2 # 10)] ready).
    reflexivity.
  - apply (Hreply "navigate" navigate_params 30%Z 0%Q
             [Recv (1 # 10) (OnMessage "ok-1"); Poll (2 # 10)] ready _
             (snd (_send_command loads repr "navigate" navigate_params 30 0
                     [Recv (1 # 10) (OnMessage "ok-1"); Poll (2 # 10)] ready)));
      reflexivity.
Defined.

(** Two calls in a row, a reply to each: the frames carry [cmd-1] and
    [cmd-2]. *)
Example two_calls_two_ids :
  sent_ids
    (run loads repr
       [Event (OnMessage "hello");
        Command "navigate" navigate_params 30 0
                [Recv (1 # 10) (OnMessage "ok-1"); Poll (2 # 10)];
        Command "get_page_state" (JObj []) 30 0 [Poll (301 # 10)]]
       fresh) =
  [Some (JStr "cmd-1"); Some (JStr "cmd-2")].
Proof. reflexivity. Qed.

End ClientProofs.

(** ** The demo server *)

Module FlaskProofs.
Import Py FlaskApp.

Lemma or_else_some s d : s <> "" -> or_else (Some s) d = s.
Proof.
  intros Hs. simpl. destruct (String.eqb s "") eqn:E; [| reflexivity].
  apply String.eqb_eq in E. contradiction.
Qed.

Lemma has_line_break_app a b :
  has_line_break (a +:+ b) = has_line_break a || has_line_break b.
Proof.
  induction a as [| x a IH]; [reflexivity |].
  change (String x a +:+ b) with (String x (a +:+ b)).
  change (has_line_break (String x (a +:+ b)))
    with (is_line_break x || has_line_break (a +:+ b)).
  change (has_line_break (String x a)) with (is_line_break x || has_line_break a).
  now rewrite IH, orb_assoc.
Qed.

(** The scheme and the closing slash add no line break. *)
Lemma has_line_break_url target :
  has_line_break ("https://" +:+ target +:+ "/") = has_line_break target.
Proof.
  rewrite !has_line_break_app.
  change (has_line_break "https://") with false.
  change (has_line_break "/") with false.
  now rewrite orb_false_r.
Qed.

(** C7, as amended.  A POST to [/submit] with a non-empty ['target']
    stores a configuration under that very value, the submitted
    ['email'] and ['phone'] inside it, whatever the value is; it then
    redirects to [https://<target>/] when the target holds no carriage
    return and no line feed, and ends in the [ValueError] of
    [redirect], the configuration stored, when it holds one. *)
Theorem submit_keyed_by_target form target temp_configs :
  form_get "target" form = Some target ->
  target <> "" ->
  snd (submit form temp_configs) =
    <[target := make_config (form_get "email" form) (form_get "phone" form)]>
      temp_configs /\
  snd (submit form temp_configs) !! target =
    Some (make_config (form_get "email" form) (form_get "phone" form)) /\
  (forall email phone,
     form_get "email" form = Some email ->
     form_get "phone" form = Some phone ->
     snd (submit form temp_configs) !! target =
       Some (JObj [("fields",
               JObj [("email", JObj [("input#AccountCheck_Account", JStr email)]);
                     ("phone", JObj [("input#PhoneField", JStr phone)])])])) /\
  (has_line_break target = false ->
   fst (submit form temp_configs) = Return (Redirect ("https://" +:+ target +:+ "/"))) /\
  (has_line_break target = true ->
   fst (submit form temp_configs) = Raise ValueError).
Proof.
  intros Htarget Hne.
  assert (Hsubmit :
    submit form temp_configs =
      (redirect ("https://" +:+ target +:+ "/"),
       <[target := make_config (form_get "email" form) (form_get "phone" form)]>
         temp_configs)).
  { unfold submit. rewrite Htarget. now rewrite or_else_some. }
  rewrite Hsubmit. simpl fst. simpl snd. rewrite lookup_insert_eq.
  unfold redirect. rewrite has_line_break_url.
  repeat split.
  - intros email phone -> ->. unfold make_config. simpl.
    now destruct (String.eqb phone "") eqn:E; [apply String.eqb_eq in E as -> |].
  - now intros ->.
  - now intros ->.
Qed.

(** C9.  A POST to [/submit] without a ['target'], or with an empty
    one, stores the configuration under ['haveibeenpwned.com'] and
    redirects to [https://haveibeenpwned.com/]; without a ['phone'] the
    stored phone value is the empty string, not [None]. *)
Theorem submit_default_target form temp_configs :
  form_get "target" form = None \/ form_get "target" form = Some "" ->
  submit form temp_configs =
    (Return (Redirect "https://haveibeenpwned.com/"),
     <["haveibeenpwned.com" :=
         make_config (form_get "email" form) (form_get "phone" form)]> temp_configs) /\
  (form_get "phone" form = None ->
   snd (submit form temp_configs) !! "haveibeenpwned.com" =
     Some (JObj [("fields",
             JObj [("email", JObj [("input#AccountCheck_Account",
                                    opt_json (form_get "email" form))]);
                   ("phone", JObj [("input#PhoneField", JStr "")])])])).
Proof.
  intros Htarget.
  assert (Hsubmit :
    submit form temp_configs =
      (Return (Redirect "https://haveibeenpwned.com/"),
       <["haveibeenpwned.com" :=
           make_config (form_get "email" form) (form_get "phone" form)]> temp_configs)).
  { unfold submit. now destruct Htarget as [-> | ->]. }
  split; [assumption |].
  intros Hphone. rewrite Hsubmit. simpl. rewrite lookup_insert_eq.
  now rewrite Hphone.
Qed.

Section WithFiles.

Variable os_path_join : string -> string -> string.
Variable os_path_exists : string -> bool.
Variable open_read : string -> outcome string.
Variable yaml_value : Type.
Variable yaml_safe_load : string -> outcome yaml_value.
Variable jsonify : yaml_value -> outcome json.

Local Abbreviation get_config :=
  (get_config os_path_join os_path_exists open_read yaml_value yaml_safe_load jsonify).

(** C8, as amended.  [GET /config?origin=o] answers 200 with the stored
    configuration when [o] is a key of [temp_configs]; otherwise 200
    with the JSON of the parsed file when
    [os.path.join('configs', o + '.yaml')] exists, opening it and
    [yaml.safe_load] succeed and [jsonify] can serialise what was
    loaded; and 404 with [{"error": "No config found"}] when [o] is no
    key and the path does not exist. *)
Theorem get_config_status origin temp_configs :
  (forall config,
     temp_configs !! origin = Some config ->
     get_config (Some origin) temp_configs = Return (Json 200 config)) /\
  (forall text config body,
     temp_configs !! origin = None ->
     os_path_exists (os_path_join "configs" (origin +:+ ".yaml")) = true ->
     open_read (os_path_join "configs" (origin +:+ ".yaml")) = Return text ->
     yaml_safe_load text = Return config ->
     jsonify config = Return body ->
     get_config (Some origin) temp_configs = Return (Json 200 body)) /\
  (temp_configs !! origin = None ->
   os_path_exists (os_path_join "configs" (origin +:+ ".yaml")) = false ->
   get_config (Some origin) temp_configs =
     Return (Json 404 (JObj [("error", JStr "No config found")]))).
Proof.
  unfold FlaskApp.get_config, config_path. simpl.
  split; [| split].
  - intros config ->. reflexivity.
  - intros text config body -> -> ->. simpl. intros ->. simpl. now intros ->.
  - intros -> ->. reflexivity.
Qed.

(** A file that exists and cannot be served: the exception of [open],
    of [yaml.safe_load] or of [jsonify] is the outcome of the view. *)
Lemma get_config_load_error origin temp_configs e :
  temp_configs !! origin = None ->
  os_path_exists (os_path_join "configs" (origin +:+ ".yaml")) = true ->
  bind (open_read (os_path_join "configs" (origin +:+ ".yaml")))
       (fun text => bind (yaml_safe_load text) jsonify) = Raise e ->
  get_config (Some origin) temp_configs = Raise e.
Proof.
  unfold FlaskApp.get_config, config_path. simpl.
  intros -> -> Hload.
  destruct (open_read _) as [text | e']; simpl in *; [| congruence].
  destruct (yaml_safe_load text) as [config | e']; simpl in *; [| congruence].
  destruct (jsonify config); simpl in *; congruence.
Qed.

(** C10.  When [o] is a key of [temp_configs] and the file of [o]
    exists as well, [GET /config?origin=o] answers with the stored
    configuration: the map is looked up first and the file is not
    read. *)
Theorem get_config_memory_first origin temp_configs config :
  temp_configs !! origin = Some config ->
  os_path_exists (os_path_join "configs" (origin +:+ ".yaml")) = true ->
  get_config (Some origin) temp_configs = Return (Json 200 config).
Proof.
  intros Hstored _. unfold FlaskApp.get_config. simpl. now rewrite Hstored.
Qed.

End WithFiles.

(** *** The claims on concrete requests *)

Import Scenario.

(** C7 as stated fails, twice over.  An empty ['target'] is replaced
    by the default, so nothing is stored under the value sent and the
    redirect does not go to it.  And a target with a line feed in it is
    stored under, but [redirect] refuses the URL with [ValueError]:
    there is no redirect at all. *)
Lemma submit_target_not_kept :
  (form_get "target" [("target", ""); ("email", "ann@example.org")] = Some "" /\
   fst (submit [("target", ""); ("email", "ann@example.org")] ∅) =
     Return (Redirect "https://haveibeenpwned.com/") /\
   snd (submit [("target", ""); ("email", "ann@example.org")] ∅) !! "" = None) /\
  (form_get "target" [("target", two_lines)] = Some two_lines /\
   fst (submit [("target", two_lines)] ∅) = Raise ValueError /\
   snd (submit [("target", two_lines)] ∅) !! two_lines =
     Some (make_config None None)).
Proof.
  split; (split; [reflexivity |]; split; [reflexivity |]).
  - simpl. rewrite lookup_insert_ne by discriminate. apply lookup_empty.
  - simpl. apply lookup_insert_eq.
Qed.

Lemma submit_keyed_by_target_witness :
  snd (submit posted ∅) =
    <["example.net" := make_config (form_get "email" posted) (form_get "phone" posted)]>
      ∅ /\
  snd (submit posted ∅) !! "example.net" =
    Some (JObj [("fields",
            JObj [("email", JObj [("input#AccountCheck_Account", JStr "ann@example.org")]);
                  ("phone", JObj [("input#PhoneField", JStr "555-0100")])])]) /\
  fst (submit posted ∅) = Return (Redirect ("https://" +:+ "example.net" +:+ "/")) /\
  fst (submit [("target", two_lines)] ∅) = Raise ValueError.
Proof.
  destruct (submit_keyed_by_target posted "example.net" ∅)
    as (Hstore & _ & Hstored & Hredirect & _).
  - reflexivity.
  - discriminate.
  - destruct (submit_keyed_by_target [("target", two_lines)] two_lines ∅)
      as (_ & _ & _ & _ & Hraise).
    + reflexivity.
    + discriminate.
    + split; [exact Hstore |]. split; [apply Hstored; reflexivity |].
      split; [apply Hredirect; reflexivity | apply Hraise; reflexivity].
Defined.

Lemma submit_default_target_witness :
  submit [("email", "ann@example.org")] ∅ =
    (Return (Redirect "https://haveibeenpwned.com/"),
     <["haveibeenpwned.com" :=
         make_config (form_get "email" [("email", "ann@example.org")])
                     (form_get "phone" [("email", "ann@example.org")])]> ∅) /\
  snd (submit [("email", "ann@example.org")] ∅) !! "haveibeenpwned.com" =
    Some (JObj [("fields",
            JObj [("email", JObj [("input#AccountCheck_Account", JStr "ann@example.org")]);
                  ("phone", JObj [("input#PhoneField", JStr "")])])]).
Proof.
  destruct (submit_default_target [("email", "ann@example.org")] ∅) as (Hsubmit & Hphone).
  - left. reflexivity.
  - split; [exact Hsubmit |]. apply Hphone. reflexivity.
Defined.

Example submit_empty_target_default :
  fst (submit [("target", ""); ("phone", "555-0100")] ∅) =
  Return (Redirect "https://haveibeenpwned.com/").
Proof. reflexivity. Qed.

(** C8 as stated fails.  [configs/broken.yaml] exists and
    [yaml.safe_load] raises on it; [configs/tags.yaml] exists and loads
    to a set, which [jsonify] cannot serialise.  Either way the view
    ends in the exception instead of a 200 answer. *)
Lemma get_config_file_not_served :
  (∅ : gmap string json) !! "broken" = None /\
  exists_file (join "configs" ("broken" +:+ ".yaml")) = true /\
  get_config join exists_file read_file (json + string) load_yaml to_json
             (Some "broken") ∅ =
    Raise (LibraryError "yaml.YAMLError") /\
  (∅ : gmap string json) !! "tags" = None /\
  exists_file (join "configs" ("tags" +:+ ".yaml")) = true /\
  get_config join exists_file read_file (json + string) load_yaml to_json
             (Some "tags") ∅ =
    Raise TypeError.
Proof. repeat (split; [first [apply lookup_empty | reflexivity] |]). reflexivity. Qed.

Lemma get_config_status_witness :
  get_config join exists_file read_file (json + string) load_yaml to_json
             (Some "example.com") (<["example.com" := JObj []]> ∅) =
    Return (Json 200 (JObj [])) /\
  get_config join exists_file read_file (json + string) load_yaml to_json
             (Some "example.com") ∅ =
    Return (Json 200 (JObj [("fields", JObj [])])) /\
  get_config join exists_file read_file (json + string) load_yaml to_json
             (Some "example.org") ∅ =
    Return (Json 404 (JObj [("error", JStr "No config found")])).
Proof.
  split; [| split].
  - destruct (get_config_status join exists_file read_file (json + string) load_yaml
                to_json "example.com" (<["example.com" := JObj []]> ∅)) as (H & _).
    apply H. apply lookup_insert_eq.
  - destruct (get_config_status join exists_file read_file (json + string) load_yaml
                to_json "example.com" ∅) as (_ & H & _).
    apply (H "fields: {}" (inl (JObj [("fields", JObj [])])));
      try reflexivity; apply lookup_empty.
  - destruct (get_config_status join exists_file read_file (json + string) load_yaml
                to_json "example.org" ∅) as (_ & _ & H).
    apply H; try reflexivity; apply lookup_empty.
Defined.

Lemma get_config_memory_first_witness :
  get_config join exists_file read_file (json + string) load_yaml to_json
             (Some "example.com")
             (<["example.com" := JObj [("fields", JObj [("email", JObj [])])]]> ∅) =
    Return (Json 200 (JObj [("fields", JObj [("email", JObj [])])])).
Proof.
  apply (get_config_memory_first join exists_file read_file (json + string) load_yaml
           to_json).
  - apply lookup_insert_eq.
  - reflexivity.
Defined.

End FlaskProofs.

(** ** The other methods of the client *)

Module ClientMethodProofs.
Import Py Client ClientMethods PyFacts ClientProofs.

Section WithLibraries.

Variable json_loads : string -> option json.
Variable py_repr : json -> string.

Local Abbreviation callback := (callback json_loads).
Local Abbreviation deliver := (deliver json_loads).
Local Abbreviation wait_for_connection := (wait_for_connection json_loads).
Local Abbreviation connect := (connect json_loads).
Local Abbreviation send := (_send_command json_loads py_repr).




Lemma wait_for_connection_client timeout start_time trace c c' :
  wait_for_connection timeout start_time trace c = Some c' ->
  exists pre post, trace = pre ++ post /\ c' = deliver pre c.
Proof.
  revert c. induction trace as [| [t ev | now] trace IH]; intros c; simpl.
  - discriminate.
  - intros H. destruct (IH _ H) as (pre & post & -> & ->).
    exists (Recv t ev :: pre), post. auto.
  - destruct (negb (connected c) && in_time timeout start_time now).
    + intros H. destruct (IH _ H) as (pre & post & -> & ->).
      exists (Poll now :: pre), post. auto.
    + intros H. injection H as <-. exists [], (Poll now :: trace). auto.
Qed.

(** The flag goes up on a greeting and on nothing else. *)
Lemma callback_raises_flag ev c :
  connected c = false ->
  connected (callback ev c) = true ->
  exists message fields,
    ev = OnMessage message /\
    json_loads message = Some (JObj fields) /\
    obj_get "command_id" fields = None /\
    obj_get "type" fields = Some (JStr "connected").
Proof.
  intros Hoff Hon. destruct ev as [| message | |]; simpl in Hon; try congruence.
  exists message.
  pose proof (on_message_cases json_loads message c) as H.
  destruct (json_loads message) as [data |];
    [| rewrite H in Hon; simpl in Hon; congruence].
  destruct data as [| b | n | f | t | items | fields];
    try (destruct H as [e H]; rewrite H in Hon; simpl in Hon; congruence).
  exists fields.
  destruct (obj_get "command_id" fields) as [kv |].
  { destruct (key_of kv); rewrite H in Hon; simpl in Hon; congruence. }
  rewrite H in Hon. simpl in Hon.
  destruct (obj_get "type" fields) as [ty |]; simpl in Hon; [| congruence].
  destruct ty as [| | | | t | |]; simpl in Hon; try congruence.
  destruct (String.eqb t "connected") eqn:Ht; [| congruence].
  apply String.eqb_eq in Ht. subst t. auto.
Qed.

Lemma deliver_raises_flag trace c :
  connected c = false ->
  connected (deliver trace c) = true ->
  exists pre at_time message post fields,
    trace = pre ++ Recv at_time (OnMessage message) :: post /\
    json_loads message = Some (JObj fields) /\
    obj_get "command_id" fields = None /\
    obj_get "type" fields = Some (JStr "connected").
Proof.
  revert c. induction trace as [| [t ev | now] trace IH]; intros c Hoff Hon.
  - simpl in Hon. congruence.
  - rewrite deliver_cons_recv in Hon.
    destruct (connected (callback ev c)) eqn:Hc.
    + destruct (callback_raises_flag ev c Hoff Hc)
        as (message & fields & -> & Hload & Hid & Hty).
      exists [], t, message, trace, fields. auto.
    + destruct (IH _ Hc Hon) as (pre & a & message & post & fields & -> & H).
      exists (Recv t ev :: pre), a, message, post, fields. auto.
  - rewrite deliver_cons_poll in Hon.
    destruct (IH _ Hoff Hon) as (pre & a & message & post & fields & -> & H).
    exists (Poll now :: pre), a, message, post, fields. auto.
Qed.



(** X3.  [connect] on a client whose flag is down returns [True] only
    after a greeting: the schedule holds a message that parses to an
    object without ['command_id'] whose ['type'] is ['connected']. *)
Theorem connect_needs_greeting timeout start_time trace c :
  connected c = false ->
  fst (connect timeout start_time trace c) = Connected ->
  exists pre at_time message post fields,
    trace = pre ++ Recv at_time (OnMessage message) :: post /\
    json_loads message = Some (JObj fields) /\
    obj_get "command_id" fields = None /\
    obj_get "type" fields = Some (JStr "connected").
Proof.
  intros Hoff. unfold ClientMethods.connect.
  destruct (wait_for_connection timeout start_time trace c) as [c' |] eqn:Hw;
    [| discriminate].
  destruct (connected c') eqn:Hon; simpl; [| discriminate]. intros _.
  destruct (wait_for_connection_client _ _ _ _ _ Hw) as (pre0 & post0 & -> & ->).
  destruct (deliver_raises_flag pre0 c Hoff Hon)
    as (pre & a & message & post & fields & -> & H).
  exists pre, a, message, (post ++ post0), fields.
  split; [| exact H]. now rewrite <- app_assoc.
Qed.

(** X4.  A message that is valid JSON but not an object (a string,
    a list, a number, [true], [false] or [null]) changes neither the
    mailbox nor the flag: the callback ends in [TypeError] or
    [AttributeError], which its [except] clause does not catch. *)
Theorem on_message_non_object message data c :
  json_loads message = Some data ->
  (forall fields, data <> JObj fields) ->
  exists e,
    on_message json_loads message c = (Raise e, c) /\
    (e = TypeError \/ e = AttributeError).
Proof.
  intros Hload Hnot. unfold on_message. rewrite Hload.
  destruct data as [| b | n | f | s | items | fields]; simpl; eauto.
  - destruct (str_contains "command_id" s); simpl; eauto.
  - destruct (existsb (is_str "command_id") items); simpl; eauto.
  - now destruct (Hnot fields).
Qed.

(** X5.  Once [disconnect] has run on a client with a socket, or the
    socket has closed, a command raises ["Not connected to server"]
    at once: no frame is sent and no id is used.  Without a socket
    [disconnect] changes nothing. *)
Theorem disconnect_then_command command_type params timeout start_time trace c :
  send command_type params timeout start_time trace (disconnect true c) =
    (Some (Raise (Exception "Not connected to server")), disconnect true c) /\
  send command_type params timeout start_time trace (callback OnClose c) =
    (Some (Raise (Exception "Not connected to server")), callback OnClose c) /\
  command_counter (disconnect true c) = command_counter c /\
  ws_sent (disconnect true c) = ws_sent c /\
  responses (disconnect true c) = responses c /\
  disconnect false c = c.
Proof.
  repeat split; now apply send_command_guard.
Qed.

Lemma dict_set_length s v d :
  dict_mem (KStr s) d = true -> length (dict_set (KStr s) v d) = length d.
Proof.
  induction d as [| [k' v'] rest IH]; simpl; [discriminate |].
  destruct (key_eqb k' (KStr s)); simpl; auto.
Qed.

(** X6.  Of two replies with the same string id the later one
    replaces the earlier: after both callbacks the id looks up the
    second reply, and the mailbox is no longer than after the first. *)
Theorem reply_replaced first second fields1 fields2 s c :
  json_loads first = Some (JObj fields1) ->
  obj_get "command_id" fields1 = Some (JStr s) ->
  json_loads second = Some (JObj fields2) ->
  obj_get "command_id" fields2 = Some (JStr s) ->
  let c1 := callback (OnMessage first) c in
  let c2 := callback (OnMessage second) c1 in
  dict_get (KStr s) (responses c1) = Some (JObj fields1) /\
  dict_get (KStr s) (responses c2) = Some (JObj fields2) /\
  length (responses c2) = length (responses c1).
Proof.
  intros Hload1 Hid1 Hload2 Hid2 c1 c2.
  pose proof (callback_files json_loads first fields1 s c Hload1 Hid1) as Hm.
  fold c1 in Hm.
  pose proof (on_message_cases json_loads first c) as H1.
  pose proof (on_message_cases json_loads second c1) as H2.
  rewrite Hload1, Hid1 in H1. rewrite Hload2, Hid2 in H2. simpl in H1, H2.
  unfold c2, callback, Client.callback. rewrite H2. simpl.
  unfold c1, callback, Client.callback in *. rewrite H1 in *. simpl in *.
  repeat split.
  - apply dict_get_set_eq.
  - apply dict_get_set_eq.
  - now apply dict_set_length.
Qed.

Lemma dict_get_mem k d v : dict_get k d = Some v -> dict_mem k d = true.
Proof.
  induction d as [| [k' v'] rest IH]; simpl; [discriminate |].
  destruct (key_eqb k' k); auto.
Qed.

(** The call whose first pass finds a reply answers from that reply. *)
Lemma first_pass_reply command_type params timeout start_time
    (trace pre post : list step) now response c :
  connected c = true ->
  client_okb c = true ->
  trace = pre ++ Poll now :: post ->
  (forall n, Poll n ∉ pre) ->
  dict_get (KStr (next_command_id c)) (responses (deliver pre c)) =
    Some (JObj response) ->
  exists d,
    send command_type params timeout start_time trace c =
      (Some (if truthy (default JNull (obj_get "success" response))
             then Return (default (JObj []) (obj_get "result" response))
             else Raise (Exception ("Command failed: " +:+
                    py_str py_repr
                      (default (JStr "Unknown error") (obj_get "error" response))))),
       set_responses d (issue command_type params (deliver pre c))) /\
    dict_mem (KStr (next_command_id c)) d = false.
Proof.
  intros Hconn Hok -> Hnone Hget.
  assert (Hw : wait_for_response json_loads (next_command_id c) timeout start_time
                 (pre ++ Poll now :: post) (issue command_type params c) =
               Found (issue command_type params (deliver pre c))).
  { rewrite wait_no_poll by assumption. rewrite deliver_issue. simpl.
    now rewrite (dict_get_mem _ _ _ Hget). }
  destruct (send_command_found json_loads py_repr command_type params timeout
              start_time _ c _ Hconn Hok Hw)
    as (response' & d & Hget' & _ & Hgone & Hsend).
  simpl in Hget'. rewrite Hget in Hget'. injection Hget' as <-.
  exists d. auto.
Qed.

(** X7.  A reply that is in the mailbox under the id of the call when
    its loop makes its first pass is what the call answers from,
    whatever the clock reads and whatever the timeout is: membership is
    tested before the clock, so such a call never times out.  This
    holds as well for a reply that was filed before the call began. *)
Theorem reply_beats_timeout command_type params timeout start_time
    (trace pre post : list step) now response c :
  connected c = true ->
  client_okb c = true ->
  trace = pre ++ Poll now :: post ->
  (forall n, Poll n ∉ pre) ->
  dict_get (KStr (next_command_id c)) (responses (deliver pre c)) =
    Some (JObj response) ->
  fst (send command_type params timeout start_time trace c) =
    Some (if truthy (default JNull (obj_get "success" response))
          then Return (default (JObj []) (obj_get "result" response))
          else Raise (Exception ("Command failed: " +:+
                 py_str py_repr
                   (default (JStr "Unknown error") (obj_get "error" response))))).
Proof.
  intros Hconn Hok Htrace Hnone Hget.
  destruct (first_pass_reply command_type params timeout start_time trace pre post
              now response c Hconn Hok Htrace Hnone Hget) as (d & -> & _).
  reflexivity.
Qed.

(** X8.  In every client a program reaches from [__init__], each
    value of the mailbox is a dict, and one filed under a string has
    that string as its ['command_id']. *)
Theorem reachable_mailbox u acts k v :
  (k, v) ∈ responses (run json_loads py_repr acts (init u)) ->
  exists fields,
    v = JObj fields /\
    (forall s, k = KStr s -> obj_get "command_id" fields = Some (JStr s)).
Proof.
  intros Hin.
  pose proof (reachable_okb json_loads py_repr u acts) as Hok.
  apply andb_prop in Hok as [_ Hall].
  rewrite forallb_forall in Hall.
  apply list_elem_of_In in Hin. specialize (Hall _ Hin).
  destruct v as [| b | n | f | t | items | fields];
    try (destruct k; discriminate).
  exists fields. split; [reflexivity |].
  intros s ->. simpl in Hall.
  destruct (obj_get "command_id" fields) as [[| | | | s' | |] |]; try discriminate.
  apply String.eqb_eq in Hall. now subst.
Qed.

(** X9.  In every client a program reaches from [__init__] the counter
    is the number of frames sent, and the frames carry the ids
    [cmd-1], [cmd-2], ... in the order they were sent. *)
Theorem reachable_counted u acts :
  let c := run json_loads py_repr acts (init u) in
  (0 <= command_counter c)%Z /\
  length (ws_sent c) = Z.to_nat (command_counter c) /\
  sent_ids c = issued_ids (Z.to_nat (command_counter c)).
Proof.
  intros c.
  destruct (run_counted json_loads py_repr acts (init u)) as [Hpos Hids].
  { split; [simpl; lia | reflexivity]. }
  fold c in Hpos, Hids. repeat split; try assumption.
  apply (f_equal (@length _)) in Hids.
  unfold sent_ids, issued_ids in Hids.
  now rewrite !length_map, length_seq in Hids.
Qed.

Lemma dict_pop_other_mem s t d v d' :
  dict_pop (KStr t) d = Some (v, d') -> s <> t ->
  dict_mem (KStr s) d = true -> dict_mem (KStr s) d' = true.
Proof.
  intros Hpop Hne. revert d' Hpop.
  induction d as [| [k' v'] rest IH]; simpl; intros d'; [discriminate |].
  destruct (key_eqb k' (KStr t)) eqn:Hk.
  - intros H. injection H as <- <-.
    apply key_eqb_str_r in Hk. subst k'. simpl.
    destruct (String.eqb t s) eqn:E; [| trivial].
    apply String.eqb_eq in E. congruence.
  - destruct (dict_pop (KStr t) rest) as [[x rest'] |]; [| discriminate].
    intros H. injection H as <- <-. simpl.
    destruct (key_eqb k' (KStr s)); eauto.
Qed.

Lemma act_keeps_issued a c k :
  (k <= command_counter c)%Z ->
  dict_mem (KStr (command_id_of k)) (responses c) = true ->
  (k <= command_counter (act json_loads py_repr c a))%Z /\
  dict_mem (KStr (command_id_of k)) (responses (act json_loads py_repr c a)) = true.
Proof.
  intros Hk Hm. destruct a as [ev | command_type params timeout start_time trace].
  - simpl. destruct (callback_frame json_loads ev c) as [-> _].
    split; [assumption | now apply callback_mem].
  - simpl. destruct (connected c) eqn:Hconn.
    + destruct (send_command_frame_counter json_loads py_repr command_type params
                  timeout start_time trace c Hconn) as [Hn _].
      split; [lia |].
      unfold _send_command. rewrite Hconn. simpl negb. cbv iota.
      destruct (wait_issue json_loads (next_command_id c) timeout start_time trace
                  command_type params c) as (pre & post & _ & Hc).
      assert (Hm' : dict_mem (KStr (command_id_of k))
                      (responses (issue command_type params (deliver pre c))) = true).
      { simpl. now apply deliver_mem. }
      destruct (wait_for_response _ _ _ _ _ _) as [c3 | c3 | c3];
        simpl in Hc; subst c3; try exact Hm'.
      destruct (dict_pop (KStr (next_command_id c))
                  (responses (issue command_type params (deliver pre c))))
        as [[v d] |] eqn:Hpop.
      * destruct (take_response_pop py_repr _ _ _ _ Hpop) as [r ->]. simpl.
        apply (dict_pop_other_mem _ _ _ _ _ Hpop); [| exact Hm'].
        intros E. apply command_id_of_inj in E. lia.
      * unfold take_response. rewrite Hpop. exact Hm'.
    + rewrite (send_command_guard json_loads py_repr _ _ _ _ _ _ Hconn). auto.
Qed.

(** X10.  A reply filed under an id that has been used already is never
    taken out again: whatever the program goes on to do, it stays in
    the mailbox.  So the reply that comes after its call has timed out
    is kept for good. *)
Theorem issued_reply_stays acts c k :
  (k <= command_counter c)%Z ->
  dict_mem (KStr (command_id_of k)) (responses c) = true ->
  dict_mem (KStr (command_id_of k)) (responses (run json_loads py_repr acts c)) = true.
Proof.
  revert c. induction acts as [| a acts IH]; intros c Hk Hm; [assumption |].
  simpl. destruct (act_keeps_issued a c k Hk Hm) as [Hk' Hm'].
  now apply IH.
Qed.

(** The call that gets no reply goes through the passes made within
    the timeout and stops at the first pass made after it. *)
Lemma send_command_times_out command_type params timeout start_time
    (pre post : list step) now c :
  connected c = true ->
  (forall n, Poll n ∈ pre -> (n - start_time <= inject_Z timeout)%Q) ->
  (inject_Z timeout < now - start_time)%Q ->
  dict_mem (KStr (next_command_id c)) (responses (deliver pre c)) = false ->
  send command_type params timeout start_time (pre ++ Poll now :: post) c =
    (Some (Raise (Exception ("Command timeout after " +:+ pretty timeout +:+ "s"))),
     issue command_type params (deliver pre c)).
Proof.
  intros Hconn Hpolls Hnow Habsent.
  unfold _send_command. rewrite Hconn. simpl negb. cbv iota.
  destruct (wait_prefix json_loads (next_command_id c) timeout start_time pre
              (Poll now :: post) (issue command_type params c))
    as [(c3 & _ & Hm) | ->].
  - intros n Hn. apply expired_false. now apply Hpolls.
  - rewrite deliver_issue in Hm. simpl in Hm. congruence.
  - simpl. rewrite (expired_true _ _ _ Hnow), !deliver_issue.
    simpl responses. now rewrite Habsent.
Qed.

(** X11.  On a connected client [navigate] and [wait_for_element]
    send one frame each, whose ['timeout'] parameter is in
    milliseconds, a thousand times the seconds the call itself waits;
    [navigate] sends ['wait_for'] only for a selector that is not
    empty, between ['url'] and ['timeout'].  The call waits with the
    [timeout] it was given, not with the 30 s of the other methods:
    while no reply is there it goes through every pass made within
    [timeout] seconds of [start_time], and at the first pass made later
    it raises [Exception] with the message
    ["Command timeout after <timeout>s"], the client being what the
    receive thread made of it by then, with the frame sent. *)
Theorem navigate_frame url wait_for selector timeout start_time trace c :
  connected c = true ->
  (forall pre now post,
     trace = pre ++ Poll now :: post ->
     (forall n, Poll n ∈ pre -> (n - start_time <= inject_Z timeout)%Q) ->
     (inject_Z timeout < now - start_time)%Q ->
     dict_mem (KStr (next_command_id c)) (responses (deliver pre c)) = false ->
     navigate json_loads py_repr url wait_for timeout start_time trace c =
       (Some (Raise (Exception ("Command timeout after " +:+ pretty timeout +:+ "s"))),
        issue "navigate"
              (JObj ([("url", JStr url)] ++ optional_item "wait_for" wait_for ++
                     [("timeout", JInt (timeout * 1000))]))
              (deliver pre c)) /\
     wait_for_element json_loads py_repr selector timeout start_time trace c =
       (Some (Raise (Exception ("Command timeout after " +:+ pretty timeout +:+ "s"))),
        issue "wait_for_element"
              (JObj [("selector", JStr selector); ("timeout", JInt (timeout * 1000))])
              (deliver pre c))) /\
  (wait_for = None \/ wait_for = Some "" ->
   ws_sent (snd (navigate json_loads py_repr url wait_for timeout start_time trace c)) =
     ws_sent c ++
     [JObj [("command_id", JStr (next_command_id c)); ("type", JStr "navigate");
            ("params", JObj [("url", JStr url);
                             ("timeout", JInt (timeout * 1000))])]]) /\
  (selector <> "" ->
   ws_sent (snd (navigate json_loads py_repr url (Some selector) timeout start_time
                          trace c)) =
     ws_sent c ++
     [JObj [("command_id", JStr (next_command_id c)); ("type", JStr "navigate");
            ("params", JObj [("url", JStr url); ("wait_for", JStr selector);
                             ("timeout", JInt (timeout * 1000))])]]) /\
  ws_sent (snd (wait_for_element json_loads py_repr selector timeout start_time
                                 trace c)) =
    ws_sent c ++
    [JObj [("command_id", JStr (next_command_id c)); ("type", JStr "wait_for_element");
           ("params", JObj [("selector", JStr selector);
                            ("timeout", JInt (timeout * 1000))])]].
Proof.
  intros Hconn. unfold navigate, wait_for_element.
  split; [| split; [| split]].
  - intros pre now post -> Hpolls Hnow Habsent.
    split; now apply send_command_times_out.
  - intros Hw.
    destruct (send_command_frame_counter json_loads py_repr "navigate"
                (JObj ([("url", JStr url)] ++ optional_item "wait_for" wait_for ++
                       [("timeout", JInt (timeout * 1000))]))
                timeout start_time trace c Hconn) as [_ ->].
    now destruct Hw as [-> | ->].
  - intros Hne.
    destruct (send_command_frame_counter json_loads py_repr "navigate"
                (JObj ([("url", JStr url)] ++ optional_item "wait_for" (Some selector) ++
                       [("timeout", JInt (timeout * 1000))]))
                timeout start_time trace c Hconn) as [_ ->].
    simpl. destruct (String.eqb selector "") eqn:E; [| reflexivity].
    apply String.eqb_eq in E. contradiction.
  - now destruct (send_command_frame_counter json_loads py_repr "wait_for_element"
                    (JObj [("selector", JStr selector);
                           ("timeout", JInt (timeout * 1000))])
                    timeout start_time trace c Hconn) as [_ ->].
Qed.

(** What [result.get(key, default)] gives for a reply that says
    success: the default without a ['result'], the field of a
    ['result'] that is a dict, [AttributeError] on any other. *)
Local Abbreviation field_of key dflt response :=
  (match obj_get "result" response with
   | None => Return dflt
   | Some (JObj result) => Return (default dflt (obj_get key result))
   | Some _ => Raise AttributeError
   end).

(** The call answers from the reply its loop finds, at whichever pass
    that is: the passes before it were made within the timeout and saw
    no entry for the id. *)
Lemma found_at_pass command_type params timeout start_time
    (trace pre post : list step) now response c :
  connected c = true ->
  client_okb c = true ->
  trace = pre ++ Poll now :: post ->
  (forall n, Poll n ∈ pre -> (n - start_time <= inject_Z timeout)%Q) ->
  (forall pre1 n rest1, pre = pre1 ++ Poll n :: rest1 ->
     dict_mem (KStr (next_command_id c)) (responses (deliver pre1 c)) = false) ->
  dict_get (KStr (next_command_id c)) (responses (deliver pre c)) =
    Some (JObj response) ->
  exists d,
    send command_type params timeout start_time trace c =
      (Some (if truthy (default JNull (obj_get "success" response))
             then Return (default (JObj []) (obj_get "result" response))
             else Raise (Exception ("Command failed: " +:+
                    py_str py_repr
                      (default (JStr "Unknown error") (obj_get "error" response))))),
       set_responses d (issue command_type params (deliver pre c))) /\
    dict_mem (KStr (next_command_id c)) d = false.
Proof.
  intros Hconn Hok -> Hpolls Habsent Hget.
  assert (Hw : wait_for_response json_loads (next_command_id c) timeout start_time
                 (pre ++ Poll now :: post) (issue command_type params c) =
               Found (issue command_type params (deliver pre c))).
  { rewrite wait_absent_prefix.
    - rewrite deliver_issue. simpl. now rewrite (dict_get_mem _ _ _ Hget).
    - intros n Hn. apply expired_false. now apply Hpolls.
    - intros pre1 n rest1 Hsplit. rewrite deliver_issue.
      exact (Habsent pre1 n rest1 Hsplit). }
  destruct (send_command_found json_loads py_repr command_type params timeout
              start_time _ c _ Hconn Hok Hw)
    as (response' & d & Hget' & _ & Hgone & Hsend).
  simpl in Hget'. rewrite Hget in Hget'. injection Hget' as <-.
  exists d. auto.
Qed.

Lemma then_get_found key dflt command_type params timeout start_time
    (trace pre post : list step) now response c :
  connected c = true ->
  client_okb c = true ->
  trace = pre ++ Poll now :: post ->
  (forall n, Poll n ∈ pre -> (n - start_time <= inject_Z timeout)%Q) ->
  (forall pre1 n rest1, pre = pre1 ++ Poll n :: rest1 ->
     dict_mem (KStr (next_command_id c)) (responses (deliver pre1 c)) = false) ->
  dict_get (KStr (next_command_id c)) (responses (deliver pre c)) =
    Some (JObj response) ->
  truthy (default JNull (obj_get "success" response)) = true ->
  fst (then_get key dflt (send command_type params timeout start_time trace c)) =
    Some (field_of key dflt response).
Proof.
  intros Hconn Hok Htrace Hpolls Habsent Hget Hsuccess.
  destruct (found_at_pass command_type params timeout start_time trace pre post
              now response c Hconn Hok Htrace Hpolls Habsent Hget) as (d & -> & _).
  rewrite Hsuccess. simpl.
  destruct (obj_get "result" response) as [result |]; simpl; [| reflexivity].
  destruct result; reflexivity.
Qed.

(** X12.  When the reply to their command says success, [screenshot],
    [execute_script], [get_cookies] and [detect_forms] return their
    default (['']; [None]; [[]]; [[]]) if the reply has no ['result']
    or the result lacks the field, the field of the result otherwise,
    and raise [AttributeError] if ['result'] is not a dict, [null]
    included.  The reply is the one in the mailbox at the pass of the
    loop that finds it, the first pass or a later one: the passes before
    it were made within the 30 s these methods wait and saw no entry
    for the id. *)
Theorem getters_on_success format quality script url start_time
    (trace pre post : list step) now response c :
  connected c = true ->
  client_okb c = true ->
  trace = pre ++ Poll now :: post ->
  (forall n, Poll n ∈ pre -> (n - start_time <= inject_Z 30)%Q) ->
  (forall pre1 n rest1, pre = pre1 ++ Poll n :: rest1 ->
     dict_mem (KStr (next_command_id c)) (responses (deliver pre1 c)) = false) ->
  dict_get (KStr (next_command_id c)) (responses (deliver pre c)) =
    Some (JObj response) ->
  truthy (default JNull (obj_get "success" response)) = true ->
  fst (screenshot json_loads py_repr format quality start_time trace c) =
    Some (field_of "screenshot" (JStr "") response) /\
  fst (execute_script json_loads py_repr script start_time trace c) =
    Some (field_of "result" JNull response) /\
  fst (get_cookies json_loads py_repr url start_time trace c) =
    Some (field_of "cookies" (JList []) response) /\
  fst (detect_forms json_loads py_repr start_time trace c) =
    Some (field_of "forms" (JList []) response).
Proof.
  intros Hconn Hok Htrace Hpolls Habsent Hget Hsuccess.
  unfold screenshot, execute_script, get_cookies, detect_forms.
  repeat split;
    apply (then_get_found _ _ _ _ _ _ trace pre post now response c);
    assumption.
Qed.

Variable bytes : Type.
Variable b64decode : string -> outcome bytes.

Lemma contains_comma_cons a s :
  str_contains "," (String a s) = Ascii.eqb a ","%char || str_contains "," s.
Proof.
  change (str_contains "," (String a s))
    with (if (if Ascii.eqb ","%char a then true else false)
          then true else str_contains "," s).
  rewrite (Ascii.eqb_sym a). now destruct (Ascii.eqb _ a).
Qed.

Lemma after_comma_app header payload :
  str_contains "," header = false ->
  str_contains "," (header +:+ "," +:+ payload) = true /\
  after_comma (header +:+ "," +:+ payload) = payload.
Proof.
  induction header as [| a header IH]; intros Hnone.
  - split; reflexivity.
  - rewrite contains_comma_cons in Hnone.
    apply orb_false_elim in Hnone as [Ha Hrest].
    destruct (IH Hrest) as [Hc Haft].
    change (String a header +:+ "," +:+ payload)
      with (String a (header +:+ "," +:+ payload)).
    rewrite contains_comma_cons, Hc, orb_true_r.
    split; [reflexivity |].
    change (after_comma (String a (header +:+ "," +:+ payload)))
      with (if Ascii.eqb a ","%char then header +:+ "," +:+ payload
            else after_comma (header +:+ "," +:+ payload)).
    now rewrite Ha.
Qed.

Lemma image_data_after_comma header payload :
  str_contains "," header = false ->
  image_data bytes b64decode (JStr (header +:+ "," +:+ payload)) = b64decode payload.
Proof.
  intros Hnone. destruct (after_comma_app header payload Hnone) as [Hc Haft].
  unfold image_data. simpl py_contains. simpl bind.
  now rewrite Hc, Haft.
Qed.

(** X13.  [save_screenshot] decodes what follows the first comma of
    the data URL, further commas and all, and the whole text when it
    has no comma. *)
Theorem image_data_payload header payload :
  str_contains "," header = false ->
  image_data bytes b64decode (JStr (header +:+ "," +:+ payload)) = b64decode payload /\
  image_data bytes b64decode (JStr header) = b64decode header.
Proof.
  intros Hnone. split; [now apply image_data_after_comma |].
  unfold image_data. simpl py_contains. simpl bind.
  now rewrite Hnone.
Qed.

(** X14.  When the reply to the screenshot command says success,
    [save_screenshot] writes, under the file name it returns, the
    decoded text after the first comma of the data URL in the result;
    and when the reply has no ['result'] it decodes the empty string
    and returns the file name all the same: a missing screenshot is no
    error.  The reply is the one in the mailbox at the pass of the loop
    that finds it, the first pass or a later one: the passes before it
    were made within the 30 s the call waits and saw no entry for the
    id. *)
Theorem save_screenshot_writes filename format header payload start_time
    (trace pre post : list step) now response c :
  connected c = true ->
  client_okb c = true ->
  trace = pre ++ Poll now :: post ->
  (forall n, Poll n ∈ pre -> (n - start_time <= inject_Z 30)%Q) ->
  (forall pre1 n rest1, pre = pre1 ++ Poll n :: rest1 ->
     dict_mem (KStr (next_command_id c)) (responses (deliver pre1 c)) = false) ->
  dict_get (KStr (next_command_id c)) (responses (deliver pre c)) =
    Some (JObj response) ->
  truthy (default JNull (obj_get "success" response)) = true ->
  (obj_get "result" response =
     Some (JObj [("screenshot", JStr (header +:+ "," +:+ payload))]) ->
   str_contains "," header = false ->
   fst (save_screenshot json_loads py_repr bytes b64decode filename format
                        start_time trace c) =
     Some (bind (b64decode payload) (fun image => Return (filename, image)))) /\
  (obj_get "result" response = None ->
   fst (save_screenshot json_loads py_repr bytes b64decode filename format
                        start_time trace c) =
     Some (bind (b64decode "") (fun image => Return (filename, image)))).
Proof.
  intros Hconn Hok Htrace Hpolls Habsent Hget Hsuccess.
  pose proof (then_get_found "screenshot" (JStr "") "screenshot"
                (JObj [("format", JStr format); ("quality", JInt 100)]) 30 start_time
                trace pre post now response c Hconn Hok Htrace Hpolls Habsent Hget
                Hsuccess)
    as Hshot.
  unfold save_screenshot, screenshot.
  destruct (then_get _ _ _) as [r c'] eqn:Hr. simpl in Hshot. subst r.
  split.
  - intros -> Hheader. simpl.
    now rewrite (image_data_after_comma header payload Hheader).
  - intros ->. reflexivity.
Qed.

End WithLibraries.

(** *** The properties on concrete calls *)



Lemma connect_needs_greeting_witness :
  exists pre at_time message post fields,
    [Poll (1 # 10); Recv (2 # 10) (OnMessage "hello"); Poll (3 # 10)] =
      pre ++ Recv at_time (OnMessage message) :: post /\
    MethodScenario.loads message = Some (JObj fields) /\
    obj_get "command_id" fields = None /\
    obj_get "type" fields = Some (JStr "connected").
Proof.
  apply (connect_needs_greeting MethodScenario.loads 10 0
           [Poll (1 # 10); Recv (2 # 10) (OnMessage "hello"); Poll (3 # 10)]
           Scenario.fresh).
  - reflexivity.
  - reflexivity.
Defined.

Lemma on_message_non_object_witness :
  exists e,
    on_message MethodScenario.loads "text" MethodScenario.ready =
      (Raise e, MethodScenario.ready) /\
    (e = TypeError \/ e = AttributeError).
Proof.
  apply (on_message_non_object MethodScenario.loads "text" (JStr "no command_id here")).
  - reflexivity.
  - discriminate.
Defined.

Lemma reply_replaced_witness :
  let c1 := callback MethodScenario.loads (OnMessage "shot-1") MethodScenario.ready in
  let c2 := callback MethodScenario.loads (OnMessage "again-1") c1 in
  dict_get (KStr "cmd-1") (responses c1) =
    Some (JObj [("command_id", JStr "cmd-1"); ("success", JBool true);
                ("result", JObj [("screenshot", JStr "data:image/png;base64,aGk=")])]) /\
  dict_get (KStr "cmd-1") (responses c2) =
    Some (JObj [("command_id", JStr "cmd-1"); ("success", JBool false);
                ("error", JStr "Tab closed")]) /\
  length (responses c2) = length (responses c1).
Proof.
  apply (reply_replaced MethodScenario.loads "shot-1" "again-1" _ _ "cmd-1"
           MethodScenario.ready); reflexivity.
Defined.

Lemma reply_beats_timeout_witness :
  fst (_send_command Scenario.loads Scenario.repr "navigate" Scenario.navigate_params
         30 0 [Recv 1 (OnMessage "fail-1"); Poll 100] Scenario.ready) =
  Some (if truthy (default JNull (obj_get "success"
                     [("command_id", JStr "cmd-1"); ("success", JBool false);
                      ("error", JStr "No such tab")]))
        then Return (default (JObj []) (obj_get "result"
                     [("command_id", JStr "cmd-1"); ("success", JBool false);
                      ("error", JStr "No such tab")]))
        else Raise (Exception ("Command failed: " +:+
               py_str Scenario.repr
                 (default (JStr "Unknown error") (obj_get "error"
                     [("command_id", JStr "cmd-1"); ("success", JBool false);
                      ("error", JStr "No such tab")]))))).
Proof.
  apply (reply_beats_timeout Scenario.loads Scenario.repr "navigate"
           Scenario.navigate_params 30 0 _ [Recv 1 (OnMessage "fail-1")] [] 100 _
           Scenario.ready).
  - reflexivity.
  - reflexivity.
  - reflexivity.
  - intros n Hn. apply elem_of_cons in Hn as [Hn | Hn]; [discriminate |].
    now apply elem_of_nil in Hn.
  - reflexivity.
Defined.

(** A first pass 100 s after the start, with a timeout of 30 s, still
    answers from the reply that is there. *)
Example reply_beats_timeout_late_pass :
  fst (_send_command Scenario.loads Scenario.repr "navigate" Scenario.navigate_params
         30 0 [Recv 1 (OnMessage "ok-1"); Poll 100] Scenario.ready) =
  Some (Return (JObj [("url", JStr "https://example.com/")])).
Proof. reflexivity. Qed.

Lemma reachable_mailbox_witness :
  exists fields,
    JObj [("command_id", JStr "cmd-1"); ("success", JBool false);
          ("error", JStr "Tab closed")] = JObj fields /\
    (forall s, KStr "cmd-1" = KStr s -> obj_get "command_id" fields = Some (JStr s)).
Proof.
  apply (reachable_mailbox MethodScenario.loads Scenario.repr "ws://localhost:8765/browser"
           [Event (OnMessage "hello");
            Command "click" (JObj []) 30 0 [Poll 31];
            Event (OnMessage "again-1")]).
  apply elem_of_cons. left. reflexivity.
Defined.

Lemma issued_reply_stays_witness :
  dict_mem (KStr (command_id_of 1))
    (responses
       (run MethodScenario.loads Scenario.repr
            [Command "get_page_state" (JObj []) 30 0
                     [Recv 1 (OnMessage "again-1"); Poll 2];
             Event OnClose;
             Command "click" (JObj []) 30 0 [Poll 1]]
            MethodScenario.after_late_reply)) = true.
Proof.
  apply (issued_reply_stays MethodScenario.loads Scenario.repr).
  - vm_compute. discriminate.
  - reflexivity.
Defined.

Lemma navigate_frame_witness :
  (navigate Scenario.loads Scenario.repr "https://example.com/" (Some "") 5 0
            [Poll 1; Poll 5; Poll 6; Poll 31] Scenario.ready =
     (Some (Raise (Exception "Command timeout after 5s")),
      issue "navigate"
            (JObj [("url", JStr "https://example.com/"); ("timeout", JInt 5000)])
            Scenario.ready) /\
   wait_for_element Scenario.loads Scenario.repr "h1" 5 0
            [Poll 1; Poll 5; Poll 6; Poll 31] Scenario.ready =
     (Some (Raise (Exception "Command timeout after 5s")),
      issue "wait_for_element"
            (JObj [("selector", JStr "h1"); ("timeout", JInt 5000)])
            Scenario.ready)) /\
  ws_sent (snd (navigate Scenario.loads Scenario.repr "https://example.com/" (Some "")
                         5 0 [Poll 1; Poll 5; Poll 6; Poll 31] Scenario.ready)) =
    ws_sent Scenario.ready ++
    [JObj [("command_id", JStr (next_command_id Scenario.ready));
           ("type", JStr "navigate");
           ("params", JObj [("url", JStr "https://example.com/");
                            ("timeout", JInt (5 * 1000))])]] /\
  ws_sent (snd (navigate Scenario.loads Scenario.repr "https://example.com/" (Some "h1")
                         5 0 [Poll 1; Poll 5; Poll 6; Poll 31] Scenario.ready)) =
    ws_sent Scenario.ready ++
    [JObj [("command_id", JStr (next_command_id Scenario.ready));
           ("type", JStr "navigate");
           ("params", JObj [("url", JStr "https://example.com/");
                            ("wait_for", JStr "h1");
                            ("timeout", JInt (5 * 1000))])]].
Proof.
  destruct (navigate_frame Scenario.loads Scenario.repr "https://example.com/"
              (Some "") "h1" 5 0 [Poll 1; Poll 5; Poll 6; Poll 31] Scenario.ready eq_refl)
    as (Hout & Hnone & Hsel & _).
  split; [| split].
  - apply (Hout [Poll 1; Poll 5] 6%Q [Poll 31]).
    + reflexivity.
    + intros n Hn. apply elem_of_cons in Hn as [Hn | Hn].
      { injection Hn as ->. unfold Qle. simpl. lia. }
      apply elem_of_cons in Hn as [Hn | Hn].
      { injection Hn as ->. unfold Qle. simpl. lia. }
      now apply elem_of_nil in Hn.
    + unfold Qlt. simpl. lia.
    + reflexivity.
  - apply Hnone. now right.
  - apply Hsel. discriminate.
Defined.

(** With a timeout of 5 s, [navigate] is still waiting at a pass made
    5 s after the start and gives up at one made after 6 s, although
    the other methods would wait for 30 s. *)
Example navigate_waits_with_its_timeout :
  fst (navigate Scenario.loads Scenario.repr "https://example.com/" None 5 0
         [Poll 5; Recv (55 # 10) (OnMessage "ok-1"); Poll 6] Scenario.ready) =
    Some (Return (JObj [("url", JStr "https://example.com/")])) /\
  fst (navigate Scenario.loads Scenario.repr "https://example.com/" None 5 0
         [Poll 5; Poll 6; Recv 7 (OnMessage "ok-1"); Poll 8] Scenario.ready) =
    Some (Raise (Exception "Command timeout after 5s")) /\
  fst (get_page_state Scenario.loads Scenario.repr 0
         [Poll 5; Poll 6; Recv 7 (OnMessage "ok-1"); Poll 8] Scenario.ready) =
    Some (Return (JObj [("url", JStr "https://example.com/")])).
Proof. repeat split. Qed.

(** A pass, the reply, a second pass that finds it. *)
Lemma pass_reply_pass message :
  (forall n, Poll n ∈ [Poll (1 # 10); Recv 1 (OnMessage message)] ->
             (n - 0 <= inject_Z 30)%Q) /\
  (forall pre1 n rest1,
     [Poll (1 # 10); Recv 1 (OnMessage message)] = pre1 ++ Poll n :: rest1 ->
     dict_mem (KStr (next_command_id MethodScenario.ready))
       (responses (deliver MethodScenario.loads pre1 MethodScenario.ready)) = false).
Proof.
  split.
  - intros n Hn. apply elem_of_cons in Hn as [Hn | Hn].
    { injection Hn as ->. unfold Qle. simpl. lia. }
    apply elem_of_cons in Hn as [Hn | Hn]; [discriminate |].
    now apply elem_of_nil in Hn.
  - intros pre1 n rest1 Hsplit.
    destruct pre1 as [| s1 [| s2 pre1]]; simpl in Hsplit.
    + reflexivity.
    + discriminate.
    + injection Hsplit as _ _ Hrest. destruct pre1; discriminate.
Qed.

Lemma getters_on_success_witness :
  fst (screenshot MethodScenario.loads Scenario.repr "png" 100 0
         [Poll (1 # 10); Recv 1 (OnMessage "null-1"); Poll 2] MethodScenario.ready) =
    Some (Raise AttributeError) /\
  fst (execute_script MethodScenario.loads Scenario.repr "1 + 1" 0
         [Poll (1 # 10); Recv 1 (OnMessage "null-1"); Poll 2] MethodScenario.ready) =
    Some (Raise AttributeError) /\
  fst (get_cookies MethodScenario.loads Scenario.repr None 0
         [Poll (1 # 10); Recv 1 (OnMessage "null-1"); Poll 2] MethodScenario.ready) =
    Some (Raise AttributeError) /\
  fst (detect_forms MethodScenario.loads Scenario.repr 0
         [Poll (1 # 10); Recv 1 (OnMessage "null-1"); Poll 2] MethodScenario.ready) =
    Some (Raise AttributeError).
Proof.
  apply (getters_on_success MethodScenario.loads Scenario.repr "png" 100 "1 + 1" None
           0 _ [Poll (1 # 10); Recv 1 (OnMessage "null-1")] [] 2
           [("command_id", JStr "cmd-1"); ("success", JBool true); ("result", JNull)]
           MethodScenario.ready).
  - reflexivity.
  - reflexivity.
  - reflexivity.
  - apply (pass_reply_pass "null-1").
  - apply (pass_reply_pass "null-1").
  - reflexivity.
  - reflexivity.
Defined.

Example detect_forms_default :
  fst (detect_forms Scenario.loads Scenario.repr 0
         [Recv 1 (OnMessage "bare-1"); Poll 2] Scenario.ready) =
  Some (Return (JList [])).
Proof. reflexivity. Qed.

Lemma image_data_payload_witness :
  image_data string MethodScenario.decode (JStr ("data:image/png;base64" +:+ "," +:+ "aGk=")) =
    MethodScenario.decode "aGk=" /\
  image_data string MethodScenario.decode (JStr "data:image/png;base64") =
    MethodScenario.decode "data:image/png;base64".
Proof.
  apply (image_data_payload string MethodScenario.decode "data:image/png;base64" "aGk=").
  reflexivity.
Defined.

Lemma save_screenshot_writes_witness :
  fst (save_screenshot MethodScenario.loads Scenario.repr string MethodScenario.decode
         "/tmp/example-screenshot.png" "png" 0
         [Poll (1 # 10); Recv 1 (OnMessage "shot-1"); Poll 2] MethodScenario.ready) =
  Some (bind (MethodScenario.decode "aGk=")
             (fun image => Return ("/tmp/example-screenshot.png", image))).
Proof.
  destruct (pass_reply_pass "shot-1") as [Hpolls Habsent].
  apply (proj1 (save_screenshot_writes MethodScenario.loads Scenario.repr string
                  MethodScenario.decode "/tmp/example-screenshot.png" "png"
                  "data:image/png;base64" "aGk=" 0
                  [Poll (1 # 10); Recv 1 (OnMessage "shot-1"); Poll 2]
                  [Poll (1 # 10); Recv 1 (OnMessage "shot-1")] []
                  2
                  [("command_id", JStr "cmd-1"); ("success", JBool true);
                   ("result",
                    JObj [("screenshot", JStr "data:image/png;base64,aGk=")])]
                  MethodScenario.ready eq_refl eq_refl eq_refl Hpolls Habsent
                  eq_refl eq_refl));
    reflexivity.
Defined.

(** The same file is written when a pass of the loop came before the
    reply. *)
Example save_screenshot_after_a_pass :
  fst (save_screenshot MethodScenario.loads Scenario.repr string MethodScenario.decode
         "/tmp/example-screenshot.png" "png" 0
         [Poll (1 # 10); Recv 1 (OnMessage "shot-1"); Poll 2] MethodScenario.ready) =
  Some (Return ("/tmp/example-screenshot.png", "hi")).
Proof. reflexivity. Qed.

Example save_screenshot_saved :
  fst (save_screenshot MethodScenario.loads Scenario.repr string MethodScenario.decode
         "/tmp/example-screenshot.png" "png" 0
         [Recv 1 (OnMessage "shot-1"); Poll 2] MethodScenario.ready) =
  Some (Return ("/tmp/example-screenshot.png", "hi")).
Proof. reflexivity. Qed.

End ClientMethodProofs.

(** ** The demo server over several requests *)

Module FlaskSessionProofs.
Import Py FlaskApp FlaskSession.

Lemma target_domain_nonempty form : target_domain form <> "".
Proof.
  unfold target_domain, or_else.
  destruct (form_get "target" form) as [s |]; [| discriminate].
  destruct (String.eqb s "") eqn:E; [discriminate |].
  intros ->. discriminate.
Qed.

Lemma run_submits_cons form forms temp_configs :
  run_submits (form :: forms) temp_configs =
  run_submits forms (<[target_domain form := config_of form]> temp_configs).
Proof. reflexivity. Qed.

Lemma run_submits_other (forms : list (list (string * string))) origin
    (temp_configs : gmap string json) :
  (forall form, form ∈ forms -> target_domain form <> origin) ->
  run_submits forms temp_configs !! origin = temp_configs !! origin.
Proof.
  revert temp_configs. induction forms as [| form forms IH]; intros tc Hother.
  - reflexivity.
  - rewrite run_submits_cons, IH.
    + apply lookup_insert_ne. apply Hother. apply elem_of_cons. now left.
    + intros g Hg. apply Hother. apply elem_of_cons. now right.
Qed.

Section WithFiles.

Variable os_path_join : string -> string -> string.
Variable os_path_exists : string -> bool.
Variable open_read : string -> outcome string.
Variable yaml_value : Type.
Variable yaml_safe_load : string -> outcome yaml_value.
Variable jsonify : yaml_value -> outcome json.

Local Abbreviation get_config :=
  (get_config os_path_join os_path_exists open_read yaml_value yaml_safe_load jsonify).

(** X15.  After a POST to [/submit], [GET /config] for the domain the
    configuration was stored under (the target, or the default for an
    empty or absent one) answers 200 with that configuration, whatever
    was stored before and whatever the files hold. *)
Theorem submit_then_get_config form temp_configs :
  get_config (Some (target_domain form)) (snd (submit form temp_configs)) =
    Return (Json 200 (make_config (form_get "email" form) (form_get "phone" form))).
Proof.
  unfold FlaskApp.get_config, submit. simpl.
  fold (target_domain form). now rewrite lookup_insert_eq.
Qed.

(** X16.  A POST to [/submit] changes the answer of [GET /config] for
    no origin but the one it stored under. *)
Theorem submit_other_origin form origin temp_configs :
  origin <> target_domain form ->
  get_config (Some origin) (snd (submit form temp_configs)) =
  get_config (Some origin) temp_configs.
Proof.
  intros Hne. unfold FlaskApp.get_config, submit. simpl.
  fold (target_domain form). now rewrite lookup_insert_ne.
Qed.

(** X18.  [submit] never stores under the empty string, so over any
    run of POSTs [GET /config?origin=] (an empty origin) is answered
    as it was before: from the files alone on a server that started
    with an empty map. *)
Theorem empty_origin_never_stored forms temp_configs :
  run_submits forms temp_configs !! "" = temp_configs !! "" /\
  get_config (Some "") (run_submits forms ∅) = get_config (Some "") ∅.
Proof.
  assert (H : forall tc : gmap string json, run_submits forms tc !! "" = tc !! "").
  { intros tc. apply run_submits_other.
    intros form _. apply target_domain_nonempty. }
  split; [apply H |].
  unfold FlaskApp.get_config. simpl. now rewrite H.
Qed.

End WithFiles.

(** X17.  Of the POSTs to [/submit] that store under one domain the
    last one wins: after any run of requests the map holds, for the
    domain of a request that no later request stored under, the
    configuration of that request. *)
Theorem last_submit_wins (before after : list (list (string * string))) form
    (temp_configs : gmap string json) :
  (forall later, later ∈ after -> target_domain later <> target_domain form) ->
  run_submits (before ++ form :: after) temp_configs !! target_domain form =
    Some (make_config (form_get "email" form) (form_get "phone" form)).
Proof.
  intros Hlater. unfold run_submits. rewrite fold_left_app. simpl.
  fold (run_submits before temp_configs).
  fold (target_domain form).
  fold (run_submits after
          (<[target_domain form :=
               make_config (form_get "email" form) (form_get "phone" form)]>
             (run_submits before temp_configs))).
  rewrite run_submits_other by assumption.
  apply lookup_insert_eq.
Qed.

(** *** The properties on concrete requests *)

Import Scenario.

Lemma submit_other_origin_witness :
  get_config join exists_file read_file (json + string) load_yaml to_json
             (Some "example.com") (snd (submit posted ∅)) =
  get_config join exists_file read_file (json + string) load_yaml to_json
             (Some "example.com") ∅.
Proof.
  apply (submit_other_origin join exists_file read_file (json + string) load_yaml
           to_json posted "example.com" ∅).
  discriminate.
Defined.

Lemma last_submit_wins_witness :
  run_submits ([[("target", "example.net"); ("email", "old@example.org")]] ++
               posted :: [[("email", "eve@example.org")]]) ∅
    !! target_domain posted =
  Some (make_config (form_get "email" posted) (form_get "phone" posted)).
Proof.
  apply (last_submit_wins [[("target", "example.net"); ("email", "old@example.org")]]
           [[("email", "eve@example.org")]] posted ∅).
  intros later Hlater. apply elem_of_cons in Hlater as [-> | Hlater].
  - discriminate.
  - now apply elem_of_nil in Hlater.
Defined.

End FlaskSessionProofs.
